(** * apiframe: the endpoint execution pipeline, its error envelopes and
    tri-state fields

    A shallow embedding of the Go packages [apierror], [apitype],
    [apiendpoint] and [apitest].  Go strings and byte slices are [string]
    (sequences of bytes), [int] status codes are [Z], a nillable pointer is
    an [option], and a function that mutates its receiver returns the new
    value next to its error result. *)

From Stdlib Require Import ZArith Ascii String List Bool.
From stdpp Require Import base option strings gmap.

Local Open Scope Z_scope.

(** ** Go error values *)

(** The concrete envelope types of package [apierror]; each embeds
    [APIError]. *)
Inductive Kind :=
  | BadRequest
  | InternalServerError
  | NotFound
  | RequestEntityTooLarge
  | ServiceUnavailable
  | Unauthorized.

(** One violation reported by the validation engine
    ([validator.FieldError]). *)
Record FieldError := {
  Namespace : string;
  Field : string;
  Tag : string;
  Param : string
}.

(** Error values that reach the pipeline.  [wrapError] is what [fmt.Errorf]
    builds for one [%w] verb, [wrapErrors] what it builds for several (and
    what [errors.Join] builds); both store their formatted text.
    [ConnectError] has an [Unwrap] method, [PgError] and the envelopes have
    none.  [APIError] is the struct of [api_error.go]. *)
#[warnings="-register-all"]
Inductive error : Type :=
  | errorString (s : string)
  | DeadlineExceeded
  | Canceled
  | MaxBytesError (Limit : Z)
  | jsonError (msg : string)
  | ConnectError (msg : string) (err : error)
  | PgError (Severity Code Message : string)
  | ValidationErrors (fes : list FieldError)
  | InvalidValidationError (msg : string)
  | wrapError (msg : string) (err : error)
  | wrapErrors (msg : string) (errs : list error)
  | Envelope (k : Kind) (e : APIError)
with APIError : Type :=
  | Build_APIError (InternalError : option error) (Message : string)
                   (StatusCode : Z).

Definition InternalError (e : APIError) : option error :=
  let 'Build_APIError i _ _ := e in i.
Definition Message (e : APIError) : string :=
  let 'Build_APIError _ m _ := e in m.
Definition StatusCode (e : APIError) : Z :=
  let 'Build_APIError _ _ c := e in c.

Module errors.

(** [errors.As]: the first error of the wrap tree, in depth-first
    pre-order, that is assignable to the target; [target] is the test
    "is assignable to the target's type". *)
Fixpoint As (target : error -> bool) (err : error) : option error :=
  if target err then Some err
  else
    match err with
    | wrapError _ inner => As target inner
    | ConnectError _ inner => As target inner
    | wrapErrors _ errs =>
        (fix first (l : list error) : option error :=
           match l with
           | [] => None
           | e :: l' =>
               match As target e with
               | Some found => Some found
               | None => first l'
               end
           end) errs
    | _ => None
    end.

Definition isDeadlineExceeded (err : error) : bool :=
  match err with DeadlineExceeded => true | _ => false end.

(** [errors.Is(err, context.DeadlineExceeded)]. *)
Definition Is_DeadlineExceeded (err : error) : bool :=
  bool_decide (is_Some (As isDeadlineExceeded err)).

End errors.

(** The external error types the pipeline looks for. *)
Definition isMaxBytesError (err : error) : bool :=
  match err with MaxBytesError _ => true | _ => false end.
Definition isConnectError (err : error) : bool :=
  match err with ConnectError _ _ => true | _ => false end.
Definition isPgError (err : error) : bool :=
  match err with PgError _ _ _ => true | _ => false end.

(** Go's [strings.Join] over error texts. *)
Fixpoint joinLines (l : list string) : string :=
  match l with
  | [] => ""
  | [s] => s
  | s :: l' => s +:+ String "010" (joinLines l')
  end.

Definition fieldErrorText (fe : FieldError) : string :=
  "Key: '" +:+ Namespace fe +:+ "' Error:Field validation for '" +:+ Field fe
  +:+ "' failed on the '" +:+ Tag fe +:+ "' tag".

(** The [Error() string] method of each error type. *)
Definition Error (err : error) : string :=
  match err with
  | errorString s => s
  | DeadlineExceeded => "context deadline exceeded"
  | Canceled => "context canceled"
  | MaxBytesError _ => "http: request body too large"
  | jsonError msg => msg
  | ConnectError msg _ => msg
  | PgError sev code msg => sev +:+ ": " +:+ msg +:+ " (SQLSTATE " +:+ code +:+ ")"
  | ValidationErrors fes => joinLines (map fieldErrorText fes)
  | InvalidValidationError msg => msg
  | wrapError msg _ => msg
  | wrapErrors msg _ => msg
  | Envelope _ e => Message e
  end.

(** [fmt.Errorf(prefix + "%w", err)], the only shape the sources use. *)
Definition Errorf_w (prefix : string) (err : error) : error :=
  wrapError (prefix +:+ Error err) err.

(** ** Contexts, the response sink and the logger *)

(** A [context.Context]: its deadline on the clock of the pipeline, and
    whether it was cancelled. *)
Record Context := { deadline : option Z; cancelled : bool }.

Module context.

Definition Background : Context := {| deadline := None; cancelled := false |}.

(** [context.WithTimeout(parent, timeout)] when the clock reads [now]. *)
Definition WithTimeout (now : Z) (parent : Context) (timeout : Z) : Context :=
  {| deadline := Some (match deadline parent with
                       | Some d => Z.min d (now + timeout)
                       | None => now + timeout
                       end);
     cancelled := cancelled parent |}.

(** [ctx.Err()] when the clock reads [now]. *)
Definition Err (now : Z) (ctx : Context) : option error :=
  if cancelled ctx then Some Canceled
  else match deadline ctx with
       | Some d => if d <=? now then Some DeadlineExceeded else None
       | None => None
       end.

End context.

Module slog.

Inductive Level := LevelInfo | LevelError.

(** A [*slog.Logger] that is not nil. *)
Inductive Logger := Default | Custom (name : string).

Record Record_ := { level : Level; msg : string; attrs : list (string * string) }.

End slog.

(** ** Executions that log and may panic *)

(** The result of running Go code that calls a logger: the value with the
    records it logged, or a panic. *)
Inductive Exec (A : Type) : Type :=
  | Done (a : A) (logs : list slog.Record_)
  | Panic (reason : string).
Arguments Done {A} a logs.
Arguments Panic {A} reason.

#[global] Instance Exec_ret : MRet Exec := fun A a => Done a [].

#[global] Instance Exec_bind : MBind Exec := fun A B f m =>
  match m with
  | Done a l =>
      match f a with
      | Done b l' => Done b (l ++ l')
      | Panic r => Panic r
      end
  | Panic r => Panic r
  end.

Definition nilDereference : string :=
  "runtime error: invalid memory address or nil pointer dereference".

(** A method call on a [*slog.Logger]: a nil receiver panics in the
    method body, which reads the logger's handler. *)
Definition logCall (logger : option slog.Logger) (r : slog.Record_) : Exec unit :=
  match logger with
  | Some _ => Done tt [r]
  | None => Panic nilDereference
  end.

Definition InfoContext (logger : option slog.Logger) (ctx : Context)
    (m : string) (a : list (string * string)) : Exec unit :=
  logCall logger {| slog.level := slog.LevelInfo; slog.msg := m; slog.attrs := a |}.

Definition ErrorContext (logger : option slog.Logger) (ctx : Context)
    (m : string) (a : list (string * string)) : Exec unit :=
  logCall logger {| slog.level := slog.LevelError; slog.msg := m; slog.attrs := a |}.

Module http.

Definition MethodGet : string := "GET".
Definition StatusBadRequest : Z := 400.
Definition StatusUnauthorized : Z := 401.
Definition StatusNotFound : Z := 404.
Definition StatusRequestEntityTooLarge : Z := 413.
Definition StatusInternalServerError : Z := 500.
Definition StatusServiceUnavailable : Z := 503.

(** An [http.ResponseWriter], as a recorder of what was sent: the header
    map, the status line once written, the body bytes, and whether the
    connection refuses writes ([broken] is the error [Write] returns). *)
Record ResponseWriter := {
  headers : gmap string string;
  status : option Z;
  written : string;
  broken : option error
}.

Definition Header_Set (k v : string) (w : ResponseWriter) : ResponseWriter :=
  {| headers := <[k := v]> (headers w); status := status w;
     written := written w; broken := broken w |}.

(** Only the first status line counts. *)
Definition WriteHeader (code : Z) (w : ResponseWriter) : ResponseWriter :=
  match status w with
  | Some _ => w
  | None => {| headers := headers w; status := Some code;
               written := written w; broken := broken w |}
  end.

(** [w.Write(data)]: an implicit 200 when no status line was written. *)
Definition Write (data : string) (w : ResponseWriter)
  : ResponseWriter * option error :=
  match broken w with
  | Some err => (w, Some err)
  | None =>
      let w' := WriteHeader 200 w in
      ({| headers := headers w'; status := status w';
          written := written w' +:+ data; broken := None |}, None)
  end.

(** [io.ReadAll] on a request body gives these bytes and this error. *)
Record Reader := { data : string; failure : option error }.

Definition ReadAll (b : Reader) : string * option error :=
  (data b, failure b).

(** [io.NopCloser(bytes.NewReader(b))]. *)
Definition NopCloser (b : string) : Reader :=
  {| data := b; failure := None |}.

(** The parts of an [*http.Request] that the pipeline and the raw
    extractors read. *)
Record Request := {
  Method : string;
  Body : Reader;
  Ctx : Context;
  PathValue : gmap string string
}.

Definition setBody (r : Request) (b : Reader) : Request :=
  {| Method := Method r; Body := b; Ctx := Ctx r; PathValue := PathValue r |}.

(** An [http.Handler]; its first argument is the reading of the clock
    when it is called. *)
Definition HandlerFunc : Type :=
  Z -> ResponseWriter -> Request -> Exec ResponseWriter.

(** What the client was sent by an execution that returned: the status
    line and the body. *)
Definition response (e : Exec ResponseWriter) : option (option Z * string) :=
  match e with
  | Done w _ => Some (status w, written w)
  | Panic _ => None
  end.

Definition responseBody (e : Exec ResponseWriter) : option string :=
  match e with
  | Done w _ => Some (written w)
  | Panic _ => None
  end.

End http.

(** ** encoding/json on strings *)

Module json.

Definition hex (n : N) : ascii :=
  nth (N.to_nat n) (list_ascii_of_string "0123456789abcdef") "0"%char.

(** The bytes that [encoding/json] copies unescaped into a string: all of
    ASCII from the space on, but the quote, the backslash and the HTML
    characters.  Bytes of multi-byte runes are copied too; the two line
    separators and invalid UTF-8, which Go rewrites, are not told apart
    here. *)
Definition htmlSafe (c : ascii) : bool :=
  let n := N_of_ascii c in
  (32 <=? n)%N && negb (n =? 34)%N && negb (n =? 38)%N && negb (n =? 60)%N
  && negb (n =? 62)%N && negb (n =? 92)%N.

Definition escape (c : ascii) : string :=
  let n := N_of_ascii c in
  if htmlSafe c then String c ""
  else if ((n =? 34) || (n =? 92))%N then String "\" (String c "")
  else if (n =? 8)%N then "\b"
  else if (n =? 12)%N then "\f"
  else if (n =? 10)%N then "\n"
  else if (n =? 13)%N then "\r"
  else if (n =? 9)%N then "\t"
  else "\u00" +:+ String (hex (n / 16)) (String (hex (n mod 16)) "").

Fixpoint escapeString (s : string) : string :=
  match s with
  | EmptyString => ""
  | String c s' => escape c +:+ escapeString s'
  end.

Definition dquote : ascii := "034"%char.

(** Strings that are copied as they are. *)
Fixpoint plain (s : string) : bool :=
  match s with
  | EmptyString => true
  | String c s' => htmlSafe c && plain s'
  end.

(** A string between double quotes, byte for byte. *)
Definition enclose (s : string) : string :=
  String dquote s +:+ String dquote "".

(** [json.Marshal] of a Go string. *)
Definition quote (s : string) : string := enclose (escapeString s).

(** The text of a one-member object whose key and value need no
    escaping, written out byte for byte. *)
Definition literalObject (key value : string) : string :=
  "{" +:+ enclose key +:+ ":" +:+ enclose value +:+ "}".

(** How [json.Unmarshal] of an object into a struct treats one field
    whose type has an [UnmarshalJSON] method: [members] are the keys of
    the object with the raw bytes of their values, in order; each member
    whose key selects the field (equal to its JSON name up to ASCII case)
    is handed to the method, also when it is the literal null, and the
    first error stops the decoding and is returned. *)
Section Unmarshaler.

Context {F : Type}.
Variable UnmarshalJSON : F -> string -> F * option error.
Variable name : string.

Definition lower (c : ascii) : ascii :=
  let n := N_of_ascii c in
  if ((65 <=? n) && (n <=? 90))%N then ascii_of_N (n + 32) else c.

Fixpoint foldName (s : string) : string :=
  match s with
  | EmptyString => EmptyString
  | String c s' => String (lower c) (foldName s')
  end.

Definition selects (key : string) : bool :=
  String.eqb (foldName key) (foldName name).

Fixpoint decodeMembers (members : list (string * string)) (field : F)
  : F * option error :=
  match members with
  | [] => (field, None)
  | (key, raw) :: rest =>
      if selects key then
        match UnmarshalJSON field raw with
        | (field', Some err) => (field', Some err)
        | (field', None) => decodeMembers rest field'
        end
      else decodeMembers rest field
  end.

End Unmarshaler.

End json.

(** ** Package apierror *)

Module apierror.

(** A value of the interface type [apierror.Interface]: the concrete
    envelope type with its embedded [APIError]. *)
Definition Interface : Type := Kind * APIError.

Definition asError (i : Interface) : error := Envelope i.1 i.2.

Definition isInterface (err : error) : bool :=
  match err with Envelope _ _ => true | _ => false end.

(** [errors.As(err, &apiErr)] for [apiErr] of type [Interface]. *)
Definition As (err : error) : option Interface :=
  match errors.As isInterface err with
  | Some (Envelope k e) => Some (k, e)
  | _ => None
  end.

Definition GetInternalError (i : Interface) : option error :=
  InternalError i.2.

Definition SetInternalError (i : Interface) (internalErr : option error)
  : Interface :=
  (i.1, Build_APIError internalErr (Message i.2) (StatusCode i.2)).

Definition WithInternalError (apiErr : Interface) (internalErr : option error)
  : Interface :=
  SetInternalError apiErr internalErr.

Definition NewBadRequest (message : string) : Interface :=
  (BadRequest, Build_APIError None message http.StatusBadRequest).

Definition NewInternalServerError (message : string) : Interface :=
  (InternalServerError,
   Build_APIError None message http.StatusInternalServerError).

Definition NewNotFound (message : string) : Interface :=
  (NotFound, Build_APIError None message http.StatusNotFound).

Definition NewRequestEntityTooLarge (message : string) : Interface :=
  (RequestEntityTooLarge,
   Build_APIError None message http.StatusRequestEntityTooLarge).

Definition NewServiceUnavailable (message : string) : Interface :=
  (ServiceUnavailable,
   Build_APIError None message http.StatusServiceUnavailable).

Definition NewUnauthorized (message : string) : Interface :=
  (Unauthorized, Build_APIError None message http.StatusUnauthorized).

(** [json.Marshal(e)] for [e *APIError]: the struct tags keep
    [InternalError] and [StatusCode] out, and a struct with one string
    field always encodes. *)
Definition Marshal (e : APIError) : string * option error :=
  ("{" +:+ json.quote "message" +:+ ":" +:+ json.quote (Message e) +:+ "}",
   None).

Definition Write (e : APIError) (ctx : Context) (logger : option slog.Logger)
    (w : http.ResponseWriter) : Exec http.ResponseWriter :=
  let w := http.Header_Set "Content-Type" "application/json; charset=utf-8" w in
  let w := http.WriteHeader (StatusCode e) w in
  let '(respData, err) := Marshal e in
  match err with
  | Some err =>
      ErrorContext logger ctx "error marshaling API error"
                   [("error", Error err)]
  | None => mret tt
  end;;
  let '(w, err) := http.Write respData w in
  match err with
  | Some err =>
      ErrorContext logger ctx "error writing API error"
                   [("error", Error err)]
  | None => mret tt
  end;;
  mret w.

End apierror.

(** ** Package apitype *)

Module apitype.

(** [ExplicitNullable[T]]: [Set_] is the Go field [Set], [Value] the
    pointer [*T]. *)
Record ExplicitNullable (T : Type) := {
  Set_ : bool;
  Value : option T
}.
Arguments Set_ {T} _.
Arguments Value {T} _.

(** What [reflect.Value.Interface()] of a struct field can hold, as far as
    the type assertion to [ExplicitNullable[T]] tells them apart. *)
Inductive FieldValue (T : Type) :=
  | ofExplicitNullable (ps : ExplicitNullable T)
  | ofOtherType.
Arguments ofExplicitNullable {T} ps.
Arguments ofOtherType {T}.

Section ExplicitNullable.

Context {T : Type}.

(** [json.Unmarshal(data, &p)] for [p] of type [*T]: the pointer after
    the call and the error. *)
Variable json_Unmarshal : string -> option T -> option T * option error.

Definition zero : ExplicitNullable T := {| Set_ := false; Value := None |}.

Definition UnmarshalJSON (ps : ExplicitNullable T) (data : string)
  : ExplicitNullable T * option error :=
  let ps := {| Set_ := true; Value := Value ps |} in
  if String.eqb data "null" then (ps, None)
  else
    let '(v, err) := json_Unmarshal data (Value ps) in
    ({| Set_ := Set_ ps; Value := v |}, err).

(** The result is the [interface{}] handed to the validator: [None] is
    the nil interface, [Some v] the pointer [ps.Value] to [v]. *)
Definition ExtractExplicitNullableValueForValidation (field : FieldValue T)
  : option T :=
  match field with
  | ofExplicitNullable ps =>
      if negb (Set_ ps) || negb (bool_decide (is_Some (Value ps)))
      then None
      else Value ps
  | ofOtherType => None
  end.

End ExplicitNullable.

End apitype.

(** ** The validation engine *)

Module validator.

(** A non-nil error returned by the [StructCtx] method of a validator. *)
Inductive Failure :=
  | Violations (fes : list FieldError)
  | Invalid (msg : string).

Definition asError (f : Failure) : error :=
  match f with
  | Violations fes => ValidationErrors fes
  | Invalid msg => InvalidValidationError msg
  end.

End validator.

Module pgerrcode.
Definition InsufficientPrivilege : string := "42501".
Definition CardinalityViolation : string := "21000".
End pgerrcode.

Module time.
Definition Second : Z := 1000000000.
End time.

(** ** Package apiendpoint *)

Module apiendpoint.

Record EndpointMeta := { Pattern : string; StatusCode : Z }.

(** [meta.validate()]: panics on a problem. *)
Definition validate (m : EndpointMeta) : Exec unit :=
  if String.eqb (Pattern m) "" then Panic "Endpoint.Path is required"
  else if StatusCode m =? 0 then Panic "Endpoint.StatusCode is required"
  else mret tt.

(** Make some broad categories of internal error back into something
    public facing. *)
Definition maybeInterpretInternalError (err : error) : error :=
  match errors.As isConnectError err with
  | Some connectErr =>
      apierror.asError
        (apierror.WithInternalError
           (apierror.NewBadRequest
              "There was a problem connecting to the configured database. Check logs for details.")
           (Some err))
  | None =>
      match errors.As isPgError err with
      | Some (PgError _ code _) =>
          if String.eqb code pgerrcode.InsufficientPrivilege then
            apierror.asError
              (apierror.WithInternalError
                 (apierror.NewBadRequest
                    "Insufficient database privilege to perform this operation.")
                 (Some err))
          else err
      | _ => err
      end
  end.

(** The block of [executeAPIEndpoint] that runs when its closure returned
    the error [err]. *)
Definition writeError (ctx : Context) (logger : option slog.Logger)
    (w : http.ResponseWriter) (err : error) : Exec http.ResponseWriter :=
  let err := maybeInterpretInternalError err in
  match apierror.As err with
  | Some apiErr =>
      let logAttrs := [("error", Error (apierror.asError apiErr))] in
      let logAttrs :=
        match apierror.GetInternalError apiErr with
        | Some internalErr =>
            logAttrs ++ [("internal_error", Error internalErr)]
        | None => logAttrs
        end in
      InfoContext logger ctx "API error response" logAttrs;;
      apierror.Write apiErr.2 ctx logger w
  | None =>
      if errors.Is_DeadlineExceeded err then
        ErrorContext logger ctx "request timeout" [("error", Error err)];;
        apierror.Write
          (apierror.NewServiceUnavailable
             "Request timed out. Retrying the request might work.").2
          ctx logger w
      else
        ErrorContext logger ctx "error running API route"
                     [("error", Error err)];;
        apierror.Write
          (apierror.NewInternalServerError
             "Internal server error. Check logs for more information.").2
          ctx logger w
  end.

Section Endpoint.

(** The request and response structs of an endpoint, with what Go
    derives from the two types: the zero request, the JSON codecs, and
    the optional [RawExtractor] and [RawResponder] methods. *)
Context {TReq TResp : Type}.
Variable zeroReq : TReq.
Variable json_Unmarshal : string -> TReq -> TReq * option error.
Variable json_Marshal : option TResp -> string * option error.
Variable ExtractRaw : option (TReq -> http.Request -> TReq * option error).
Variable RespondRaw :
  option (option TResp -> http.ResponseWriter
          -> http.ResponseWriter * option error).

(** A validator, by what its [StructCtx] method answers on a pointer to
    a request and on a pointer to a response. *)
Record Validate := {
  StructCtxReq : Context -> option TReq -> option validator.Failure;
  StructCtxResp : Context -> option TResp -> option validator.Failure
}.

(** Package [internal/validate] is not part of the sources at hand: its
    default validator and its message renderer are parameters. *)
Variable Default : Validate.
Variable PublicFacingMessage : Validate -> validator.Failure -> string.

Definition Handler : Type :=
  Context -> option TReq -> option TResp * option error.

Record MountOpts := {
  Logger : option slog.Logger;
  MiddlewareStack : option (http.HandlerFunc -> http.HandlerFunc);
  Validator : option Validate
}.

(** An endpoint: its [Meta] and [Execute] methods and the two fields of
    the embedded [Endpoint] struct. *)
Record EndpointExecuteInterface := {
  Meta : EndpointMeta;
  Execute : Handler;
  logger : option slog.Logger;
  meta : option EndpointMeta
}.

Definition SetLogger (e : EndpointExecuteInterface)
    (l : option slog.Logger) : EndpointExecuteInterface :=
  {| Meta := Meta e; Execute := Execute e; logger := l; meta := meta e |}.

Definition SetMeta (e : EndpointExecuteInterface)
    (m : option EndpointMeta) : EndpointExecuteInterface :=
  {| Meta := Meta e; Execute := Execute e; logger := logger e; meta := m |}.

(** First part of the closure of [executeAPIEndpoint]: the request
    struct after the body was read and decoded, and the request with
    its body made readable again. *)
Definition decodeBody (r : http.Request) : (TReq * http.Request) + error :=
  let req := zeroReq in
  if negb (String.eqb (http.Method r) http.MethodGet) then
    let '(reqData, err) := http.ReadAll (http.Body r) in
    match err with
    | Some err =>
        match errors.As isMaxBytesError err with
        | Some maxBytesErr =>
            inr (apierror.asError
                   (apierror.NewRequestEntityTooLarge
                      "Request entity too large."))
        | None => inr (Errorf_w "error reading request body: " err)
        end
    | None =>
        let '(req, err) :=
          if (0 <? Z.of_nat (String.length reqData))
          then json_Unmarshal reqData req
          else (req, None) in
        match err with
        | Some err =>
            inr (apierror.asError
                   (apierror.NewBadRequest
                      ("Error unmarshaling request body: " +:+ Error err
                       +:+ ".")))
        | None => inl (req, http.setBody r (http.NopCloser reqData))
        end
    end
  else inl (req, r).

(** Second part: the request struct after the raw extraction of a request
    type that has one. *)
Definition extract (r : http.Request) : TReq + error :=
  match decodeBody r with
  | inr err => inr err
  | inl (req, r) =>
      let '(req, err) :=
        match ExtractRaw with
        | Some extractRaw => extractRaw req r
        | None => (req, None)
        end in
      match err with
      | Some err => inr err
      | None => inl req
      end
  end.

(** The closure up to the call of the handler: the validated request
    struct that the handler will receive, or the error returned before. *)
Definition prepare (ctx : Context) (validator : Validate)
    (r : http.Request) : TReq + error :=
  match extract r with
  | inr err => inr err
  | inl req =>
      match StructCtxReq validator ctx (Some req) with
      | Some err =>
          inr (apierror.asError
                 (apierror.NewBadRequest
                    (PublicFacingMessage validator err)))
      | None => inl req
      end
  end.

(** The closure after the handler returned [resp] without error. *)
Definition respond (w : http.ResponseWriter) (meta : EndpointMeta)
    (resp : option TResp) : http.ResponseWriter * option error :=
  match RespondRaw with
  | Some respondRaw => respondRaw resp w
  | None =>
      let '(respData, err) := json_Marshal resp in
      match err with
      | Some err => (w, Some (Errorf_w "error marshaling response JSON: " err))
      | None =>
          let w := http.Header_Set "Content-Type"
                                   "application/json; charset=utf-8" w in
          let w := http.WriteHeader (StatusCode meta) w in
          let '(w, err) := http.Write respData w in
          match err with
          | Some err => (w, Some (Errorf_w "error writing response: " err))
          | None => (w, None)
          end
      end
  end.

(** The closure [func() error] of [executeAPIEndpoint]. *)
Definition run (ctx : Context) (w : http.ResponseWriter)
    (r : http.Request) (meta : EndpointMeta) (validator : Validate)
    (execute : Handler) : http.ResponseWriter * option error :=
  match prepare ctx validator r with
  | inr err => (w, Some err)
  | inl req =>
      let '(resp, err) := execute ctx (Some req) in
      match err with
      | Some err => (w, Some err)
      | None => respond w meta resp
      end
  end.

Definition executeAPIEndpoint (now : Z) (w : http.ResponseWriter)
    (r : http.Request) (logger : option slog.Logger) (meta : EndpointMeta)
    (validator : Validate) (execute : Handler)
  : Exec http.ResponseWriter :=
  let ctx := context.WithTimeout now (http.Ctx r) (10 * time.Second) in
  let '(w, err) := run ctx w r meta validator execute in
  match err with
  | Some err => writeError ctx logger w err
  | None => mret w
  end.

Definition noOpts : MountOpts :=
  {| Logger := None; MiddlewareStack := None; Validator := None |}.

(** [Mount]: the multiplexer with the endpoint registered under its
    pattern, and the endpoint after [SetLogger] and [SetMeta]. *)
Definition Mount (mux : gmap string http.HandlerFunc)
    (apiEndpoint : EndpointExecuteInterface) (opts : option MountOpts)
  : Exec (gmap string http.HandlerFunc * EndpointExecuteInterface) :=
  let opts := match opts with Some o => o | None => noOpts end in
  let logger := match Logger opts with
                | Some l => l
                | None => slog.Default
                end in
  let validator := match Validator opts with
                   | Some v => v
                   | None => Default
                   end in
  let apiEndpoint := SetLogger apiEndpoint (Some logger) in
  let meta := Meta apiEndpoint in
  validate meta;;
  let apiEndpoint := SetMeta apiEndpoint (Some meta) in
  let innerHandler : http.HandlerFunc := fun now w r =>
    executeAPIEndpoint now w r (Logger opts) meta validator
                       (Execute apiEndpoint) in
  mret (match MiddlewareStack opts with
        | Some stack => <[Pattern meta := stack innerHandler]> mux
        | None => <[Pattern meta := innerHandler]> mux
        end, apiEndpoint).

End Endpoint.

End apiendpoint.

(** ** Package apitest *)

Module apitest.

Import apiendpoint.

Section InvokeHandler.

Context {TReq TResp : Type}.
Variable Default : @Validate TReq TResp.
Variable PublicFacingMessage :
  @Validate TReq TResp -> validator.Failure -> string.

(** [InvokeHandler] invokes a service handler and returns its
    results. *)
Definition InvokeHandler (ctx : Context) (handler : @Handler TReq TResp)
    (opts : option (@MountOpts TReq TResp)) (req : option TReq)
  : option TResp * option error :=
  let opts := match opts with Some o => o | None => noOpts end in
  let validator := match Validator opts with
                   | Some v => v
                   | None => Default
                   end in
  match StructCtxReq validator ctx req with
  | Some err =>
      (None, Some (apierror.asError
                     (apierror.NewBadRequest
                        (PublicFacingMessage validator err))))
  | None =>
      let '(resp, err) := handler ctx req in
      match err with
      | Some err => (None, Some err)
      | None =>
          match StructCtxResp validator ctx resp with
          | Some err =>
              (None,
               Some (Errorf_w
                       "apitest: error validating response API resource: "
                       (validator.asError err)))
          | None => (resp, None)
          end
      end
  end.

End InvokeHandler.

End apitest.

(** ** Package internal/validate *)

Module validate.

(** Modelled from the spec: [PublicFacingMessage] of package
    [internal/validate], whose source is not at hand.  It renders one
    sentence from the first violation (section 4.3); for the rule
    [required] the sentence is the one that the tests of the repository
    expect ([TestMountAndServe/ValidationError] and
    [TestInvokeHandler/ValidatesRequest]), with the name of the field
    between backticks.  The sentences of the other rules, and the text for
    an error without violations, are the parameters [describe] and
    [unhandled]. *)
Definition PublicFacingMessage (describe : FieldError -> string)
    (unhandled : string) (err : validator.Failure) : string :=
  match err with
  | validator.Violations (fe :: _) =>
      if String.eqb (Tag fe) "required"
      then "Field `" +:+ Field fe +:+ "` is required."
      else describe fe
  | _ => unhandled
  end.

End validate.

(** ** Values used by the tests of the repository *)

Module apitype_test.

Import apitype.

(** The characters between the quotes of a JSON string without escape
    sequences; [s] is what follows the opening quote. *)
Fixpoint unquoteTail (s : string) : option string :=
  match s with
  | EmptyString => None
  | String c EmptyString =>
      if Ascii.eqb c json.dquote then Some EmptyString else None
  | String c s' =>
      if json.htmlSafe c then String c <$> unquoteTail s' else None
  end.

Definition startsWithDigit (s : string) : bool :=
  match s with
  | String c _ => let n := N_of_ascii c in ((48 <=? n) && (n <=? 57))%N
  | EmptyString => false
  end.

(** A decoder for the target [*string] on the literals that the tests
    send: a string without escapes, null, and a number, which is a
    type mismatch that leaves the target allocated; other input is
    reported as a syntax error and leaves the target alone. *)
Definition unmarshalString (data : string) (p : option string)
  : option string * option error :=
  match data with
  | String c s' =>
      if Ascii.eqb c json.dquote then
        match unquoteTail s' with
        | Some v => (Some v, None)
        | None => (p, Some (jsonError "unexpected end of JSON input"))
        end
      else if String.eqb data "null" then (None, None)
      else if startsWithDigit data then
        (Some (default EmptyString p),
         Some (jsonError
                 "json: cannot unmarshal number into Go value of type string"))
      else (p, Some (jsonError "invalid character looking for beginning of value"))
  | EmptyString => (p, Some (jsonError "unexpected end of JSON input"))
  end.

(** [testPayload]: one tri-state field with the JSON name [label]. *)
Record testPayload := { Label : ExplicitNullable string }.

Definition decodePayload (members : list (string * string)) : testPayload * option error :=
  let '(l, err) :=
    json.decodeMembers (UnmarshalJSON unmarshalString) "label" members zero in
  ({| Label := l |}, err).

Definition ptr {T} (v : T) : option T := Some v.

End apitype_test.

Module apiendpoint_test.

Import apiendpoint.

Record getRequest := { IgnoredJSONMessage : string }.
Record getResponse := { getMessage : string }.

Definition getMeta : EndpointMeta :=
  {| Pattern := "GET /api/get-endpoint"; StatusCode := 200 |}.

(** A nil request would be dereferenced; the pipeline passes none. *)
Definition getExecute : @Handler getRequest getResponse := fun _ req =>
  match req with
  | None => (None, Some (errorString nilDereference))
  | Some req =>
      if negb (String.eqb (IgnoredJSONMessage req) "")
      then (Some {| getMessage := IgnoredJSONMessage req |}, None)
      else (Some {| getMessage := "Hello." |}, None)
  end.

Record postRequest := {
  ID : string;
  MakeAPIError : bool;
  MakeInternalError : bool;
  MakePostgresError : bool;
  postMessage : string;
  RawPayload : string
}.

Record postResponse := {
  respID : string;
  respMessage : string;
  respRawPayload : string
}.

Definition postMeta : EndpointMeta :=
  {| Pattern := "POST /api/post-endpoint/{id}"; StatusCode := 201 |}.

Definition postZero : postRequest :=
  {| ID := ""; MakeAPIError := false; MakeInternalError := false;
     MakePostgresError := false; postMessage := ""; RawPayload := "" |}.

Definition postExtractRaw (req : postRequest) (r : http.Request)
  : postRequest * option error :=
  let '(payload, err) := http.ReadAll (http.Body r) in
  let req := {| ID := ID req; MakeAPIError := MakeAPIError req;
                MakeInternalError := MakeInternalError req;
                MakePostgresError := MakePostgresError req;
                postMessage := postMessage req; RawPayload := payload |} in
  match err with
  | Some err => (req, Some err)
  | None =>
      ({| ID := default "" (http.PathValue r !! "id");
          MakeAPIError := MakeAPIError req;
          MakeInternalError := MakeInternalError req;
          MakePostgresError := MakePostgresError req;
          postMessage := postMessage req; RawPayload := RawPayload req |},
       None)
  end.

(** [postEndpoint.Execute], with the reading of the clock that its call
    of [ctx.Err()] sees. *)
Definition postExecute (now : Z) : @Handler postRequest postResponse :=
  fun ctx req =>
  match req with
  | None => (None, Some (errorString nilDereference))
  | Some req =>
      match context.Err now ctx with
      | Some err => (None, Some err)
      | None =>
          if MakeAPIError req then
            (None, Some (apierror.asError (apierror.NewBadRequest "Bad request.")))
          else if MakeInternalError req then
            (None, Some (errorString "an internal error occurred"))
          else if MakePostgresError req then
            (None, Some (Errorf_w "error running Postgres query: "
                           (PgError "" pgerrcode.InsufficientPrivilege "")))
          else
            (Some {| respID := ID req; respMessage := postMessage req;
                     respRawPayload := RawPayload req |}, None)
      end
  end.

(** The payload [{"message":"Hello."}] of the tests. *)
Definition helloPayload : string := json.literalObject "message" "Hello.".

(** A decoder for [postRequest] on the payloads that the examples send;
    other input is reported as malformed. *)
Definition postUnmarshal (data : string) (req : postRequest)
  : postRequest * option error :=
  if String.eqb data "{}" then (req, None)
  else if String.eqb data helloPayload then
    ({| ID := ID req; MakeAPIError := MakeAPIError req;
        MakeInternalError := MakeInternalError req;
        MakePostgresError := MakePostgresError req;
        postMessage := "Hello."; RawPayload := RawPayload req |}, None)
  else (req, Some (jsonError "invalid character looking for beginning of value")).

Definition postMarshal (resp : option postResponse) : string * option error :=
  match resp with
  | None => ("null", None)
  | Some resp =>
      ("{" +:+ json.quote "id" +:+ ":" +:+ json.quote (respID resp) +:+ ","
       +:+ json.quote "message" +:+ ":" +:+ json.quote (respMessage resp)
       +:+ "," +:+ json.quote "raw_payload" +:+ ":"
       +:+ (if String.eqb (respRawPayload resp) "" then "null"
            else respRawPayload resp) +:+ "}", None)
  end.

Definition requiredMessage : FieldError :=
  {| Namespace := "postRequest.message"; Field := "message";
     Tag := "required"; Param := "" |}.

(** The validation tags of [postRequest]: [message] is required. *)
Definition postValidator : @Validate postRequest postResponse :=
  {| StructCtxReq := fun _ req =>
       match req with
       | None => Some (validator.Invalid "validator: (nil *apiendpoint.postRequest)")
       | Some req =>
           if String.eqb (postMessage req) ""
           then Some (validator.Violations [requiredMessage])
           else None
       end;
     StructCtxResp := fun _ resp =>
       match resp with
       | None => Some (validator.Invalid "validator: (nil *apiendpoint.postResponse)")
       | Some _ => None
       end |}.

(** A validator that reads its rules from another struct tag and so
    accepts every [postRequest]. *)
Definition otherTagValidator : @Validate postRequest postResponse :=
  {| StructCtxReq := fun _ req =>
       match req with
       | None => Some (validator.Invalid "validator: (nil *apiendpoint.postRequest)")
       | Some _ => None
       end;
     StructCtxResp := StructCtxResp postValidator |}.

Definition publicFacingMessage
  : @Validate postRequest postResponse -> validator.Failure -> string :=
  fun _ => validate.PublicFacingMessage
             (fun fe => "Validation on field `" +:+ Field fe
                        +:+ "` failed on the `" +:+ Tag fe +:+ "` tag.")
             "Unhandled validation error.".

(** A fresh response recorder and two requests of the tests. *)
Definition recorder : http.ResponseWriter :=
  {| http.headers := ∅; http.status := None; http.written := "";
     http.broken := None |}.

Definition postTo (ctx : Context) (body : string) : http.Request :=
  {| http.Method := "POST"; http.Body := http.NopCloser body;
     http.Ctx := ctx; http.PathValue := {["id" := "123"]} |}.

Definition getWith (body : string) : http.Request :=
  {| http.Method := "GET"; http.Body := http.NopCloser body;
     http.Ctx := context.Background; http.PathValue := {["id" := "123"]} |}.

Definition testLogger : slog.Logger := slog.Custom "test".

(** The handler that [Mount] registers for [postEndpoint]. *)
Definition servePost (logger : option slog.Logger)
    (validator : @Validate postRequest postResponse) (now : Z)
    (w : http.ResponseWriter) (r : http.Request) : Exec http.ResponseWriter :=
  executeAPIEndpoint postZero postUnmarshal postMarshal (Some postExtractRaw)
    None publicFacingMessage now w r logger postMeta validator
    (postExecute now).

End apiendpoint_test.

Module apitest_test.

Import apiendpoint.

Record testRequest := { RequiredReqField : string }.
Record testResponse := { RequiredRespField : string }.

Definition handler : @Handler testRequest testResponse := fun _ req =>
  (Some {| RequiredRespField := "response value" |}, None).

Definition emptyHandler : @Handler testRequest testResponse := fun _ _ =>
  (Some {| RequiredRespField := "" |}, None).

Definition required (namespace field : string) : FieldError :=
  {| Namespace := namespace; Field := field; Tag := "required"; Param := "" |}.

(** The validation tags of the two structs: both fields are required. *)
Definition tags : @Validate testRequest testResponse :=
  {| StructCtxReq := fun _ req =>
       match req with
       | None => Some (validator.Invalid "validator: (nil *apitest.testRequest)")
       | Some req =>
           if String.eqb (RequiredReqField req) ""
           then Some (validator.Violations
                        [required "testRequest.req_field" "req_field"])
           else None
       end;
     StructCtxResp := fun _ resp =>
       match resp with
       | None => Some (validator.Invalid "validator: (nil *apitest.testResponse)")
       | Some resp =>
           if String.eqb (RequiredRespField resp) ""
           then Some (validator.Violations
                        [required "testResponse.resp_field" "resp_field"])
           else None
       end |}.

Definition publicFacingMessage
  : @Validate testRequest testResponse -> validator.Failure -> string :=
  fun _ => validate.PublicFacingMessage
             (fun fe => "Validation on field `" +:+ Field fe
                        +:+ "` failed on the `" +:+ Tag fe +:+ "` tag.")
             "Unhandled validation error.".

End apitest_test.

(** ** The variant of apitest without options *)

Module apitest_go.

Import apiendpoint.

Section InvokeHandler.

Context {TReq TResp : Type}.

(** The file [apitest/apitest.go] calls the package-level functions
    [validate.StructCtx] and [validate.PublicFacingMessage] of
    [internal/validate], which are parameters. *)
Variable StructCtx : @Validate TReq TResp.
Variable PublicFacingMessage : validator.Failure -> string.

Definition InvokeHandler (ctx : Context) (handler : @Handler TReq TResp)
    (req : option TReq) : option TResp * option error :=
  match StructCtxReq StructCtx ctx req with
  | Some err =>
      (None, Some (apierror.asError
                     (apierror.NewBadRequest (PublicFacingMessage err))))
  | None =>
      let '(resp, err) := handler ctx req in
      match err with
      | Some err => (None, Some err)
      | None =>
          match StructCtxResp StructCtx ctx resp with
          | Some err =>
              (None,
               Some (Errorf_w
                       "apitest: error validating response API resource: "
                       (validator.asError err)))
          | None => (resp, None)
          end
      end
  end.

End InvokeHandler.

End apitest_go.

(** ** More values for examples *)

Module examples.

Import apiendpoint.

(** A recorder behind a connection that refuses writes. *)
Definition brokenRecorder : http.ResponseWriter :=
  {| http.headers := ∅; http.status := None; http.written := "";
     http.broken := Some (errorString "write: broken pipe") |}.

(** A POST request whose body, behind [http.MaxBytesReader], is longer
    than the limit. *)
Definition tooLarge : http.Request :=
  {| http.Method := "POST";
     http.Body := {| http.data := "{"; http.failure := Some (MaxBytesError 1) |};
     http.Ctx := context.Background; http.PathValue := {["id" := "123"]} |}.

(** A POST request whose body stops with a read error. *)
Definition interrupted : http.Request :=
  {| http.Method := "POST";
     http.Body := {| http.data := "{";
                     http.failure := Some (errorString "unexpected EOF") |};
     http.Ctx := context.Background; http.PathValue := {["id" := "123"]} |}.

(** A raw extraction that rejects every request with a 404 envelope. *)
Definition rejectRaw (req : apiendpoint_test.postRequest) (r : http.Request)
  : apiendpoint_test.postRequest * option error :=
  (req, Some (apierror.asError (apierror.NewNotFound "No such thing."))).

(** A response type that writes itself: plain text with status 202. *)
Definition respondText (resp : option apiendpoint_test.postResponse)
    (w : http.ResponseWriter) : http.ResponseWriter * option error :=
  let w := http.Header_Set "Content-Type" "text/plain" w in
  let w := http.WriteHeader 202 w in
  http.Write (match resp with
              | Some resp => apiendpoint_test.respMessage resp
              | None => ""
              end) w.

(** An encoder that fails on every response. *)
Definition failingMarshal (resp : option apiendpoint_test.postResponse)
  : string * option error :=
  ("", Some (jsonError "json: unsupported value")).

(** [postEndpoint] as an endpoint value before it is mounted. *)
Definition postEndpoint
  : @EndpointExecuteInterface apiendpoint_test.postRequest
      apiendpoint_test.postResponse :=
  {| Meta := apiendpoint_test.postMeta;
     Execute := apiendpoint_test.postExecute 0;
     logger := None; meta := None |}.

End examples.

(** * Properties *)

(** ** Tri-state fields *)

Section ExplicitNullableFacts.

Import apitype.
Context {T : Type}.
Variable json_Unmarshal : string -> option T -> option T * option error.

Lemma UnmarshalJSON_null (ps : ExplicitNullable T) :
  UnmarshalJSON json_Unmarshal ps "null"
  = ({| Set_ := true; Value := Value ps |}, None).
Proof. reflexivity. Qed.

Lemma UnmarshalJSON_value (ps : ExplicitNullable T) (data : string) :
  data <> "null" ->
  UnmarshalJSON json_Unmarshal ps data
  = ({| Set_ := true; Value := (json_Unmarshal data (Value ps)).1 |},
     (json_Unmarshal data (Value ps)).2).
Proof.
  intros Hne. unfold UnmarshalJSON.
  destruct (String.eqb_spec data "null") as [->|_]; [congruence|].
  simpl. by destruct (json_Unmarshal data (Value ps)).
Qed.

Lemma UnmarshalJSON_Set (ps : ExplicitNullable T) (data : string) :
  Set_ (UnmarshalJSON json_Unmarshal ps data).1 = true.
Proof.
  unfold UnmarshalJSON. destruct (String.eqb data "null"); [done|].
  simpl. by destruct (json_Unmarshal data (Value ps)).
Qed.

End ExplicitNullableFacts.

(** C5: the validation-extraction function returns no value exactly when
    the field is absent ([Set] false) or explicit-null ([Set] true, [Value]
    nil), and returns the inner value when the field is explicit-value,
    whatever that value is (so also the zero value of the type). *)
Theorem extract_for_validation_tri_state {T : Type}
    (ps : apitype.ExplicitNullable T) :
  (apitype.ExtractExplicitNullableValueForValidation
     (apitype.ofExplicitNullable ps) = None
   <-> apitype.Set_ ps = false
       \/ (apitype.Set_ ps = true /\ apitype.Value ps = None))
  /\ (forall v : T,
        apitype.Set_ ps = true -> apitype.Value ps = Some v ->
        apitype.ExtractExplicitNullableValueForValidation
          (apitype.ofExplicitNullable ps) = Some v).
Proof.
  destruct ps as [[] [v|]]; cbn; split.
  - split; [discriminate|]. intros [?|[_ ?]]; discriminate.
  - intros v' _ [= ->]. reflexivity.
  - split; [intros _; right; done | done].
  - intros v' _ [=].
  - split; [intros _; left; done | done].
  - intros v' [=].
  - split; [intros _; left; done | done].
  - intros v' [=].
Qed.

Lemma extract_for_validation_empty_string :
  apitype.ExtractExplicitNullableValueForValidation
    (apitype.ofExplicitNullable
       {| apitype.Set_ := true; apitype.Value := apitype_test.ptr "" |})
  = apitype_test.ptr "".
Proof.
  apply (proj2 (extract_for_validation_tri_state
                  {| apitype.Set_ := true;
                     apitype.Value := apitype_test.ptr "" |}));
    reflexivity.
Defined.

Section DecodeMembers.

Import apitype.
Context {T : Type}.
Variable json_Unmarshal : string -> option T -> option T * option error.
Variable name : string.

Local Abbreviation decode :=
  (json.decodeMembers (UnmarshalJSON json_Unmarshal) name).
Local Abbreviation other :=
  (fun m : string * string => json.selects name m.1 = false).

Lemma decodeMembers_skip (pre rest : list (string * string))
    (field : ExplicitNullable T) :
  Forall other pre -> decode (pre ++ rest) field = decode rest field.
Proof.
  induction 1 as [|[key raw] pre Hkey _ IH]; [done|].
  simpl in *. by rewrite Hkey.
Qed.

Lemma decodeMembers_others (members : list (string * string))
    (field : ExplicitNullable T) :
  Forall other members -> decode members field = (field, None).
Proof.
  intros H. rewrite <- (app_nil_r members). by rewrite decodeMembers_skip.
Qed.

Lemma decodeMembers_once (pre post : list (string * string))
    (key raw : string) (field : ExplicitNullable T) :
  Forall other pre -> Forall other post -> json.selects name key = true ->
  decode (pre ++ (key, raw) :: post) field
  = UnmarshalJSON json_Unmarshal field raw.
Proof.
  intros Hpre Hpost Hkey. rewrite decodeMembers_skip by done.
  simpl. rewrite Hkey.
  destruct (UnmarshalJSON json_Unmarshal field raw) as [field' [err|]];
    [done|].
  by apply decodeMembers_others.
Qed.

End DecodeMembers.



(** A key that occurs twice reaches [UnmarshalJSON] twice, and the literal
    null does not clear a value stored before. *)
Example decode_repeated_key :
  apitype_test.decodePayload
    [("label", json.enclose "a"); ("label", "null")]
  = ({| apitype_test.Label :=
          {| apitype.Set_ := true; apitype.Value := Some "a" |} |}, None).
Proof. reflexivity. Qed.

(** C10: [UnmarshalJSON] is not atomic on error.  When the inner value
    fails to decode, the call returns the error and the field it leaves has
    [Set] true; a field that was absent before is therefore changed. *)
Theorem UnmarshalJSON_error_keeps_Set {T : Type}
    (json_Unmarshal : string -> option T -> option T * option error)
    (ps : apitype.ExplicitNullable T) (data : string)
    (v : option T) (err : error) :
  data <> "null" ->
  json_Unmarshal data (apitype.Value ps) = (v, Some err) ->
  apitype.UnmarshalJSON json_Unmarshal ps data
  = ({| apitype.Set_ := true; apitype.Value := v |}, Some err)
  /\ (apitype.Set_ ps = false ->
      (apitype.UnmarshalJSON json_Unmarshal ps data).1 <> ps).
Proof.
  intros Hdata Hv. rewrite UnmarshalJSON_value by done. rewrite Hv. cbn.
  split; [done|]. intros Hset Heq. rewrite <- Heq in Hset. discriminate.
Qed.

Lemma UnmarshalJSON_error_keeps_Set_number :
  apitype.UnmarshalJSON apitype_test.unmarshalString apitype.zero "5"
  = ({| apitype.Set_ := true; apitype.Value := Some "" |},
     Some (jsonError
             "json: cannot unmarshal number into Go value of type string"))
  /\ (apitype.UnmarshalJSON apitype_test.unmarshalString apitype.zero "5").1
     <> apitype.zero.
Proof.
  destruct (UnmarshalJSON_error_keeps_Set apitype_test.unmarshalString
              apitype.zero "5" (Some "")
              (jsonError
                 "json: cannot unmarshal number into Go value of type string"))
    as [H1 H2]; [discriminate | reflexivity |].
  split; [exact H1 | apply H2; reflexivity].
Defined.

(** ** Error envelopes *)

Lemma Write_working_sink (e : APIError) (ctx : Context)
    (logger : option slog.Logger) (w : http.ResponseWriter) :
  http.broken w = None ->
  apierror.Write e ctx logger w
  = Done {| http.headers :=
              <["Content-Type" := "application/json; charset=utf-8"]>
                (http.headers w);
            http.status := Some (default (StatusCode e) (http.status w));
            http.written := http.written w +:+ (apierror.Marshal e).1;
            http.broken := None |} [].
Proof.
  intros Hb. unfold apierror.Write, http.Write, http.WriteHeader,
    http.Header_Set. cbn. destruct (http.status w); cbn; rewrite Hb; done.
Qed.

(** C7: the body that [Write] sends is the JSON object with the public
    message alone.  Two envelopes with the same message get the same body,
    whatever their internal causes and status codes are; with the same
    status code as well, the whole effect of [Write] is the same; and on a
    working sink the bytes appended are the encoding of the message. *)
Theorem Write_body_is_message_only (e1 e2 : APIError) (ctx : Context)
    (logger : option slog.Logger) (w : http.ResponseWriter) :
  Message e1 = Message e2 ->
  http.responseBody (apierror.Write e1 ctx logger w)
  = http.responseBody (apierror.Write e2 ctx logger w)
  /\ (StatusCode e1 = StatusCode e2 ->
      apierror.Write e1 ctx logger w = apierror.Write e2 ctx logger w)
  /\ (http.broken w = None ->
      http.responseBody (apierror.Write e1 ctx logger w)
      = Some (http.written w +:+ "{" +:+ json.quote "message" +:+ ":"
              +:+ json.quote (Message e1) +:+ "}")).
Proof.
  destruct e1 as [i1 m1 c1], e2 as [i2 m2 c2]. intros Hm. cbn in Hm.
  subst m2. split; [|split].
  - unfold apierror.Write, http.Write, http.WriteHeader, http.Header_Set.
    cbn. destruct (http.status w), (http.broken w), logger; reflexivity.
  - intros Hc. cbn in Hc. subst c2. reflexivity.
  - intros Hb. rewrite Write_working_sink by done. reflexivity.
Qed.

Lemma Write_body_is_message_only_bad_request :
  let secret := Build_APIError (Some (errorString "password=hunter2"))
                               "Bad request." 400 in
  let bare := Build_APIError None "Bad request." 400 in
  http.responseBody
    (apierror.Write secret context.Background None apiendpoint_test.recorder)
  = http.responseBody
      (apierror.Write bare context.Background None apiendpoint_test.recorder)
  /\ apierror.Write secret context.Background None apiendpoint_test.recorder
     = apierror.Write bare context.Background None apiendpoint_test.recorder
  /\ http.responseBody
       (apierror.Write secret context.Background None
                       apiendpoint_test.recorder)
     = Some (json.literalObject "message" "Bad request.").
Proof.
  intros secret bare.
  destruct (Write_body_is_message_only secret bare context.Background None
              apiendpoint_test.recorder eq_refl) as (H1 & H2 & H3).
  split; [exact H1|]. split; [exact (H2 eq_refl)|]. exact (H3 eq_refl).
Defined.

Lemma escapeString_plain (s : string) :
  json.plain s = true -> json.escapeString s = s.
Proof.
  induction s as [|c s IH]; [done|]. cbn [json.plain json.escapeString].
  intros [Hc Hs]%andb_prop. unfold json.escape. rewrite Hc. cbn.
  by rewrite IH.
Qed.

Lemma Marshal_plain (e : APIError) :
  json.plain (Message e) = true ->
  (apierror.Marshal e).1 = json.literalObject "message" (Message e).
Proof.
  intros Hp. unfold apierror.Marshal, json.literalObject, json.quote. cbn.
  by rewrite escapeString_plain.
Qed.

(** ** Classification of errors *)

Section Classification.

Variables (ctx : Context) (l : slog.Logger) (w : http.ResponseWriter).
Hypothesis fresh : http.status w = None.
Hypothesis working : http.broken w = None.

Lemma log_then (r : slog.Record_) (k : Exec http.ResponseWriter) :
  (logCall (Some l) r;; k)
  = match k with
    | Done a logs => Done a (r :: logs)
    | Panic p => Panic p
    end.
Proof. reflexivity. Qed.

(** What the client receives when the envelope [e] is logged and written to
    a fresh sink. *)
Lemma response_envelope (r : slog.Record_) (e : APIError) :
  json.plain (Message e) = true ->
  http.response (logCall (Some l) r;; apierror.Write e ctx (Some l) w)
  = Some (Some (StatusCode e),
          http.written w +:+ json.literalObject "message" (Message e)).
Proof.
  intros Hp. rewrite log_then, Write_working_sink by done.
  unfold http.response. cbn [http.status http.written].
  by rewrite fresh, Marshal_plain.
Qed.

Lemma writeError_envelope (err : error) (k : Kind) (e : APIError) :
  apiendpoint.maybeInterpretInternalError err = Envelope k e ->
  json.plain (Message e) = true ->
  http.response (apiendpoint.writeError ctx (Some l) w err)
  = Some (Some (StatusCode e),
          http.written w +:+ json.literalObject "message" (Message e)).
Proof.
  intros Hi Hp. unfold apiendpoint.writeError. rewrite Hi. cbn -[apierror.Write].
  unfold InfoContext. by apply response_envelope.
Qed.

Lemma writeError_plain_error (err : error) :
  apiendpoint.maybeInterpretInternalError err = err ->
  apierror.As err = None ->
  http.response (apiendpoint.writeError ctx (Some l) w err)
  = if errors.Is_DeadlineExceeded err
    then Some (Some 503,
               http.written w +:+ json.literalObject "message"
                 "Request timed out. Retrying the request might work.")
    else Some (Some 500,
               http.written w +:+ json.literalObject "message"
                 "Internal server error. Check logs for more information.").
Proof.
  intros Hi Ha. unfold apiendpoint.writeError. rewrite Hi, Ha.
  destruct (errors.Is_DeadlineExceeded err); unfold ErrorContext;
    by rewrite response_envelope.
Qed.

Lemma maybeInterpretInternalError_other (err : error) :
  errors.As isConnectError err = None ->
  (forall sev code msg,
     errors.As isPgError err = Some (PgError sev code msg) ->
     code <> pgerrcode.InsufficientPrivilege) ->
  apiendpoint.maybeInterpretInternalError err = err.
Proof.
  intros Hc Hp. unfold apiendpoint.maybeInterpretInternalError. rewrite Hc.
  destruct (errors.As isPgError err) as [[]|]; try reflexivity.
  destruct (String.eqb_spec Code pgerrcode.InsufficientPrivilege) as [->|];
    [|reflexivity].
  by destruct (Hp _ _ _ eq_refl).
Qed.

End Classification.

(** C3, as the code has it: reinterpretation is an allow-list.  An error
    in which [errors.As] finds a connect failure, or else a database error
    with the code of insufficient privilege, becomes a [BadRequest]
    envelope with a fixed message and the original error as its internal
    cause, and is written with status 400.  Every other error, whatever
    database code it has, is returned unchanged; when it carries no envelope
    it is written as the generic 500, unless it is a deadline signal, which
    is written as 503. *)
Theorem reinterpretation_allow_list (err : error) (ctx : Context)
    (l : slog.Logger) (w : http.ResponseWriter) :
  http.status w = None ->
  http.broken w = None ->
  (is_Some (errors.As isConnectError err) ->
   apiendpoint.maybeInterpretInternalError err
   = Envelope BadRequest
       (Build_APIError (Some err)
          "There was a problem connecting to the configured database. Check logs for details."
          400)
   /\ http.response (apiendpoint.writeError ctx (Some l) w err)
      = Some (Some 400,
              http.written w +:+ json.literalObject "message"
                "There was a problem connecting to the configured database. Check logs for details."))
  /\ (errors.As isConnectError err = None ->
      forall sev msg,
      errors.As isPgError err
      = Some (PgError sev pgerrcode.InsufficientPrivilege msg) ->
      apiendpoint.maybeInterpretInternalError err
      = Envelope BadRequest
          (Build_APIError (Some err)
             "Insufficient database privilege to perform this operation."
             400)
      /\ http.response (apiendpoint.writeError ctx (Some l) w err)
         = Some (Some 400,
                 http.written w +:+ json.literalObject "message"
                   "Insufficient database privilege to perform this operation."))
  /\ (errors.As isConnectError err = None ->
      (forall sev code msg,
         errors.As isPgError err = Some (PgError sev code msg) ->
         code <> pgerrcode.InsufficientPrivilege) ->
      apiendpoint.maybeInterpretInternalError err = err
      /\ (apierror.As err = None ->
          http.response (apiendpoint.writeError ctx (Some l) w err)
          = if errors.Is_DeadlineExceeded err
            then Some (Some 503,
                       http.written w +:+ json.literalObject "message"
                         "Request timed out. Retrying the request might work.")
            else Some (Some 500,
                       http.written w +:+ json.literalObject "message"
                         "Internal server error. Check logs for more information."))).
Proof.
  intros Hfresh Hworking. split; [|split].
  - intros [c Hc].
    assert (apiendpoint.maybeInterpretInternalError err
            = Envelope BadRequest
                (Build_APIError (Some err)
                   "There was a problem connecting to the configured database. Check logs for details."
                   400)) as Hi
      by (unfold apiendpoint.maybeInterpretInternalError; by rewrite Hc).
    split; [exact Hi|].
    by rewrite (writeError_envelope ctx l w Hfresh Hworking err _ _ Hi).
  - intros Hc sev msg Hp.
    assert (apiendpoint.maybeInterpretInternalError err
            = Envelope BadRequest
                (Build_APIError (Some err)
                   "Insufficient database privilege to perform this operation."
                   400)) as Hi
      by (unfold apiendpoint.maybeInterpretInternalError; by rewrite Hc, Hp).
    split; [exact Hi|].
    by rewrite (writeError_envelope ctx l w Hfresh Hworking err _ _ Hi).
  - intros Hc Hp.
    pose proof (maybeInterpretInternalError_other err Hc Hp) as Hi.
    split; [exact Hi|]. intros Ha.
    by apply writeError_plain_error.
Qed.

Lemma reinterpretation_allow_list_examples :
  let w := apiendpoint_test.recorder in
  let l := apiendpoint_test.testLogger in
  let denied := Errorf_w "error running Postgres query: "
                  (PgError "" pgerrcode.InsufficientPrivilege "") in
  let cardinality := PgError "" pgerrcode.CardinalityViolation "" in
  http.response (apiendpoint.writeError context.Background (Some l) w denied)
  = Some (Some 400,
          json.literalObject "message"
            "Insufficient database privilege to perform this operation.")
  /\ apiendpoint.maybeInterpretInternalError cardinality = cardinality
  /\ http.response
       (apiendpoint.writeError context.Background (Some l) w cardinality)
     = Some (Some 500,
             json.literalObject "message"
               "Internal server error. Check logs for more information.").
Proof.
  intros w l denied cardinality.
  destruct (reinterpretation_allow_list denied context.Background l w
              eq_refl eq_refl) as (_ & Hdenied & _).
  destruct (reinterpretation_allow_list cardinality context.Background l w
              eq_refl eq_refl) as (_ & _ & Hother).
  destruct (Hdenied eq_refl "" "" eq_refl) as [_ H1].
  destruct (Hother eq_refl) as [H2 H3].
  { intros sev code msg [= _ <- _]. discriminate. }
  split; [exact H1|]. split; [exact H2|]. exact (H3 eq_refl).
Defined.

(** The claim C3 promises the generic 500 for every error that is neither
    an envelope nor on the allow-list; the deadline signal is such an error
    and is written as 503. *)
Lemma deadline_is_not_written_as_500 :
  errors.As isConnectError DeadlineExceeded = None
  /\ errors.As isPgError DeadlineExceeded = None
  /\ apierror.As DeadlineExceeded = None
  /\ apiendpoint.maybeInterpretInternalError DeadlineExceeded
     = DeadlineExceeded
  /\ http.response
       (apiendpoint.writeError context.Background
          (Some apiendpoint_test.testLogger) apiendpoint_test.recorder
          DeadlineExceeded)
     = Some (Some 503,
             json.literalObject "message"
               "Request timed out. Retrying the request might work.")
  /\ http.response
       (apiendpoint.writeError context.Background
          (Some apiendpoint_test.testLogger) apiendpoint_test.recorder
          DeadlineExceeded)
     <> Some (Some 500,
              json.literalObject "message"
                "Internal server error. Check logs for more information.").
Proof. repeat split; vm_compute; congruence. Qed.

(** The deadline signal inside a connect failure: it carries no envelope
    and [errors.Is] finds the deadline in it, yet reinterpretation comes
    first and the response is the 400 of the allow-list, not the 503 that
    the claim C2 promises. *)
Lemma deadline_inside_connect_failure_is_400 :
  let err := ConnectError "failed to connect: context deadline exceeded"
                          DeadlineExceeded in
  apierror.As err = None
  /\ errors.Is_DeadlineExceeded err = true
  /\ http.response
       (apiendpoint.writeError context.Background
          (Some apiendpoint_test.testLogger) apiendpoint_test.recorder err)
     = Some (Some 400,
             json.literalObject "message"
               "There was a problem connecting to the configured database. Check logs for details.")
  /\ http.response
       (apiendpoint.writeError context.Background
          (Some apiendpoint_test.testLogger) apiendpoint_test.recorder err)
     <> Some (Some 503,
              json.literalObject "message"
                "Request timed out. Retrying the request might work.").
Proof. repeat split; vm_compute; congruence. Qed.

Lemma writeError_nil_logger (ctx : Context) (w : http.ResponseWriter)
    (err : error) :
  apiendpoint.writeError ctx None w err = Panic nilDereference.
Proof.
  unfold apiendpoint.writeError.
  destruct (apierror.As _); [reflexivity|].
  destruct (errors.Is_DeadlineExceeded _); reflexivity.
Qed.

Lemma validate_ok (m : apiendpoint.EndpointMeta) :
  apiendpoint.Pattern m <> "" -> apiendpoint.StatusCode m <> 0 ->
  apiendpoint.validate m = Done tt [].
Proof.
  intros Hp Hs. unfold apiendpoint.validate.
  destruct (String.eqb_spec (apiendpoint.Pattern m) ""); [done|].
  destruct (Z.eqb_spec (apiendpoint.StatusCode m) 0); done.
Qed.

(** ** The pipeline *)

Section PipelineFacts.

Context {TReq TResp : Type}.
Variable zeroReq : TReq.
Variable json_Unmarshal : string -> TReq -> TReq * option error.
Variable json_Marshal : option TResp -> string * option error.
Variable ExtractRaw : option (TReq -> http.Request -> TReq * option error).
Variable RespondRaw :
  option (option TResp -> http.ResponseWriter
          -> http.ResponseWriter * option error).
Variable Default : @apiendpoint.Validate TReq TResp.
Variable PublicFacingMessage :
  @apiendpoint.Validate TReq TResp -> validator.Failure -> string.

Local Abbreviation run :=
  (apiendpoint.run zeroReq json_Unmarshal json_Marshal ExtractRaw RespondRaw
                   PublicFacingMessage).
Local Abbreviation executeAPIEndpoint :=
  (apiendpoint.executeAPIEndpoint zeroReq json_Unmarshal json_Marshal
     ExtractRaw RespondRaw PublicFacingMessage).
Local Abbreviation Mount :=
  (apiendpoint.Mount zeroReq json_Unmarshal json_Marshal ExtractRaw RespondRaw
                     Default PublicFacingMessage).
Local Abbreviation pipelineContext now r :=
  (context.WithTimeout now (http.Ctx r) (10 * time.Second)).

Lemma executeAPIEndpoint_error (now : Z) (w w' : http.ResponseWriter)
    (r : http.Request) (logger : option slog.Logger)
    (meta : apiendpoint.EndpointMeta)
    (validator : @apiendpoint.Validate TReq TResp)
    (execute : @apiendpoint.Handler TReq TResp) (err : error) :
  run (pipelineContext now r) w r meta validator execute = (w', Some err) ->
  executeAPIEndpoint now w r logger meta validator execute
  = apiendpoint.writeError (pipelineContext now r) logger w' err.
Proof. intros H. unfold apiendpoint.executeAPIEndpoint. by rewrite H. Qed.

(** C2, as the code has it: when the closure of the pipeline returns an
    error that carries no envelope, that reinterpretation leaves alone (no
    connect failure and no database error of insufficient privilege is found
    in it) and in which [errors.Is] finds the deadline signal, the response
    on a fresh sink is the 503 with the retry message, not a 500. *)
Theorem deadline_exceeded_is_503 (now : Z) (w w' : http.ResponseWriter)
    (r : http.Request) (l : slog.Logger) (meta : apiendpoint.EndpointMeta)
    (validator : @apiendpoint.Validate TReq TResp)
    (execute : @apiendpoint.Handler TReq TResp) (err : error) :
  run (pipelineContext now r) w r meta validator execute = (w', Some err) ->
  apierror.As err = None ->
  errors.As isConnectError err = None ->
  (forall sev code msg,
     errors.As isPgError err = Some (PgError sev code msg) ->
     code <> pgerrcode.InsufficientPrivilege) ->
  errors.Is_DeadlineExceeded err = true ->
  http.status w' = None ->
  http.broken w' = None ->
  http.response (executeAPIEndpoint now w r (Some l) meta validator execute)
  = Some (Some 503,
          http.written w' +:+ json.literalObject "message"
            "Request timed out. Retrying the request might work.").
Proof.
  intros Hrun Ha Hc Hp Hd Hfresh Hworking.
  rewrite (executeAPIEndpoint_error _ _ _ _ _ _ _ _ _ Hrun).
  rewrite writeError_plain_error;
    [by rewrite Hd | done | done | by apply maybeInterpretInternalError_other
    | done].
Qed.

(** C9: with no options, or with options without a logger, [Mount] sets
    the default logger on the endpoint, but the handler it registers runs
    the pipeline with the nil logger of the options; whenever the closure of
    the pipeline returns an error, that handler panics on the nil logger. *)
Theorem Mount_passes_nil_logger (mux : gmap string http.HandlerFunc)
    (ep : @apiendpoint.EndpointExecuteInterface TReq TResp)
    (opts : option (@apiendpoint.MountOpts TReq TResp)) :
  let o := match opts with Some o => o | None => apiendpoint.noOpts end in
  let validator := match apiendpoint.Validator o with
                   | Some v => v
                   | None => Default
                   end in
  let inner : http.HandlerFunc := fun now w r =>
    executeAPIEndpoint now w r None (apiendpoint.Meta ep) validator
                       (apiendpoint.Execute ep) in
  apiendpoint.Logger o = None ->
  apiendpoint.Pattern (apiendpoint.Meta ep) <> "" ->
  apiendpoint.StatusCode (apiendpoint.Meta ep) <> 0 ->
  Mount mux ep opts
  = Done (match apiendpoint.MiddlewareStack o with
          | Some stack =>
              <[apiendpoint.Pattern (apiendpoint.Meta ep) := stack inner]> mux
          | None => <[apiendpoint.Pattern (apiendpoint.Meta ep) := inner]> mux
          end,
          {| apiendpoint.Meta := apiendpoint.Meta ep;
             apiendpoint.Execute := apiendpoint.Execute ep;
             apiendpoint.logger := Some slog.Default;
             apiendpoint.meta := Some (apiendpoint.Meta ep) |}) []
  /\ (forall now w r w' err,
        run (pipelineContext now r) w r (apiendpoint.Meta ep) validator
            (apiendpoint.Execute ep) = (w', Some err) ->
        inner now w r = Panic nilDereference).
Proof.
  intros o validator inner Hlogger Hpattern Hstatus. split.
  - unfold apiendpoint.Mount. fold o. rewrite Hlogger. cbn.
    rewrite validate_ok by done. reflexivity.
  - intros now w r w' err Hrun. unfold inner.
    rewrite (executeAPIEndpoint_error _ _ _ _ _ _ _ _ _ Hrun).
    apply writeError_nil_logger.
Qed.

End PipelineFacts.

Lemma deadline_exceeded_is_503_expired :
  http.response
    (apiendpoint_test.servePost (Some apiendpoint_test.testLogger)
       apiendpoint_test.postValidator 5 apiendpoint_test.recorder
       (apiendpoint_test.postTo {| deadline := Some 5; cancelled := false |}
                                apiendpoint_test.helloPayload))
  = Some (Some 503,
          json.literalObject "message"
            "Request timed out. Retrying the request might work.").
Proof.
  apply (deadline_exceeded_is_503 apiendpoint_test.postZero
           apiendpoint_test.postUnmarshal apiendpoint_test.postMarshal
           (Some apiendpoint_test.postExtractRaw) None
           apiendpoint_test.publicFacingMessage 5 apiendpoint_test.recorder
           apiendpoint_test.recorder _ apiendpoint_test.testLogger
           apiendpoint_test.postMeta apiendpoint_test.postValidator
           (apiendpoint_test.postExecute 5) DeadlineExceeded);
    try (vm_compute; reflexivity).
  intros sev code msg H. vm_compute in H. discriminate.
Defined.

Lemma Mount_passes_nil_logger_post :
  apiendpoint_test.servePost None apiendpoint_test.postValidator 0
    apiendpoint_test.recorder
    (apiendpoint_test.postTo context.Background "")
  = Panic nilDereference.
Proof.
  pose (ep := {| apiendpoint.Meta := apiendpoint_test.postMeta;
                 apiendpoint.Execute := apiendpoint_test.postExecute 0;
                 apiendpoint.logger := None;
                 apiendpoint.meta := None |}).
  destruct (Mount_passes_nil_logger apiendpoint_test.postZero
              apiendpoint_test.postUnmarshal apiendpoint_test.postMarshal
              (Some apiendpoint_test.postExtractRaw) None
              apiendpoint_test.postValidator
              apiendpoint_test.publicFacingMessage ∅ ep None)
    as [_ Hpanic]; [reflexivity | discriminate | discriminate |].
  apply (Hpanic 0 apiendpoint_test.recorder
           (apiendpoint_test.postTo context.Background "")
           apiendpoint_test.recorder
           (apierror.asError
              (apierror.NewBadRequest "Field `message` is required."))).
  vm_compute. reflexivity.
Defined.


Section RequestFacts.

Context {TReq TResp : Type}.
Variable zeroReq : TReq.
Variable json_Unmarshal : string -> TReq -> TReq * option error.
Variable json_Marshal : option TResp -> string * option error.
Variable ExtractRaw : option (TReq -> http.Request -> TReq * option error).
Variable RespondRaw :
  option (option TResp -> http.ResponseWriter
          -> http.ResponseWriter * option error).
Variable PublicFacingMessage :
  @apiendpoint.Validate TReq TResp -> validator.Failure -> string.

Lemma decodeBody_GET (r : http.Request) :
  http.Method r = http.MethodGet ->
  apiendpoint.decodeBody zeroReq json_Unmarshal r = inl (zeroReq, r).
Proof. intros H. unfold apiendpoint.decodeBody. by rewrite H. Qed.

Lemma prepare_GET_without_extractor (ctx : Context)
    (validator : @apiendpoint.Validate TReq TResp) (r : http.Request) :
  http.Method r = http.MethodGet ->
  apiendpoint.prepare zeroReq json_Unmarshal None PublicFacingMessage ctx
                      validator r
  = match apiendpoint.StructCtxReq validator ctx (Some zeroReq) with
    | Some err =>
        inr (apierror.asError
               (apierror.NewBadRequest (PublicFacingMessage validator err)))
    | None => inl zeroReq
    end.
Proof.
  intros H. unfold apiendpoint.prepare, apiendpoint.extract.
  by rewrite decodeBody_GET.
Qed.

(** C4, as the code has it: for a GET request the pipeline itself neither
    reads nor decodes the body: the struct that it hands on is the zero
    value, and the request is left as it came.  A request type with raw
    extraction gets that zero struct and the request, and what it makes of
    them goes to the handler.  Without raw extraction, validation and the
    handler receive the zero struct, and the whole execution is the same
    for any two GET requests in the same context, whatever their bodies
    are: a malformed body causes no failure and no error response. *)
Theorem GET_body_is_not_decoded (r : http.Request) :
  http.Method r = http.MethodGet ->
  apiendpoint.decodeBody zeroReq json_Unmarshal r = inl (zeroReq, r)
  /\ apiendpoint.extract zeroReq json_Unmarshal ExtractRaw r
     = match ExtractRaw with
       | Some extractRaw =>
           match extractRaw zeroReq r with
           | (_, Some err) => inr err
           | (req, None) => inl req
           end
       | None => inl zeroReq
       end
  /\ (forall ctx validator,
        apiendpoint.prepare zeroReq json_Unmarshal None PublicFacingMessage
                            ctx validator r
        = match apiendpoint.StructCtxReq validator ctx (Some zeroReq) with
          | Some err =>
              inr (apierror.asError
                     (apierror.NewBadRequest
                        (PublicFacingMessage validator err)))
          | None => inl zeroReq
          end)
  /\ (forall r2 now w logger meta validator execute,
        http.Method r2 = http.MethodGet ->
        http.Ctx r2 = http.Ctx r ->
        apiendpoint.executeAPIEndpoint zeroReq json_Unmarshal json_Marshal
          None RespondRaw PublicFacingMessage now w r2 logger meta validator
          execute
        = apiendpoint.executeAPIEndpoint zeroReq json_Unmarshal json_Marshal
            None RespondRaw PublicFacingMessage now w r logger meta validator
            execute).
Proof.
  intros Hget. split; [by apply decodeBody_GET|]. split; [|split].
  - unfold apiendpoint.extract. rewrite decodeBody_GET by done.
    destruct ExtractRaw as [extractRaw|]; [|done].
    by destruct (extractRaw zeroReq r) as [req [err|]].
  - intros ctx validator. by apply prepare_GET_without_extractor.
  - intros r2 now w logger meta validator execute Hget2 Hctx.
    unfold apiendpoint.executeAPIEndpoint, apiendpoint.run.
    rewrite !prepare_GET_without_extractor by done. by rewrite Hctx.
Qed.

Section RequiredField.

Variable describe : FieldError -> string.
Variable unhandled : string.


End RequiredField.

End RequestFacts.



Lemma GET_body_is_not_decoded_get :
  apiendpoint.executeAPIEndpoint {| apiendpoint_test.IgnoredJSONMessage := "" |}
    (fun _ req => (req, Some (jsonError "invalid character"))) 
    (fun _ => ("{}", None)) None None
    (fun _ => validate.PublicFacingMessage (fun _ => "") "")
    0 apiendpoint_test.recorder (apiendpoint_test.getWith "not json")
    (Some apiendpoint_test.testLogger) apiendpoint_test.getMeta
    {| apiendpoint.StructCtxReq := fun _ _ => None;
       apiendpoint.StructCtxResp := fun _ _ => None |}
    apiendpoint_test.getExecute
  = apiendpoint.executeAPIEndpoint {| apiendpoint_test.IgnoredJSONMessage := "" |}
      (fun _ req => (req, Some (jsonError "invalid character")))
      (fun _ => ("{}", None)) None None
      (fun _ => validate.PublicFacingMessage (fun _ => "") "")
      0 apiendpoint_test.recorder (apiendpoint_test.getWith "")
      (Some apiendpoint_test.testLogger) apiendpoint_test.getMeta
      {| apiendpoint.StructCtxReq := fun _ _ => None;
         apiendpoint.StructCtxResp := fun _ _ => None |}
      apiendpoint_test.getExecute.
Proof.
  apply (GET_body_is_not_decoded
           {| apiendpoint_test.IgnoredJSONMessage := "" |}
           (fun _ req => (req, Some (jsonError "invalid character")))
           (fun _ => ("{}", None)) None None
           (fun _ => validate.PublicFacingMessage (fun _ => "") "")
           (apiendpoint_test.getWith "") eq_refl); reflexivity.
Defined.

(** The claim C4 has the handler of every GET request receive the zero
    struct whatever the body is; with the raw extraction of [postRequest]
    the struct that passes validation and reaches the handler holds the bytes
    of the body and the path value. *)
Lemma GET_raw_extraction_reads_body :
  apiendpoint.prepare apiendpoint_test.postZero apiendpoint_test.postUnmarshal
    (Some apiendpoint_test.postExtractRaw)
    apiendpoint_test.publicFacingMessage context.Background
    apiendpoint_test.otherTagValidator (apiendpoint_test.getWith "not json")
  = inl {| apiendpoint_test.ID := "123";
           apiendpoint_test.MakeAPIError := false;
           apiendpoint_test.MakeInternalError := false;
           apiendpoint_test.MakePostgresError := false;
           apiendpoint_test.postMessage := "";
           apiendpoint_test.RawPayload := "not json" |}
  /\ apiendpoint.prepare apiendpoint_test.postZero
       apiendpoint_test.postUnmarshal (Some apiendpoint_test.postExtractRaw)
       apiendpoint_test.publicFacingMessage context.Background
       apiendpoint_test.otherTagValidator (apiendpoint_test.getWith "not json")
     <> inl apiendpoint_test.postZero.
Proof. split; vm_compute; congruence. Qed.

(** ** The direct-invocation helper *)

(** C8: [InvokeHandler] validates the request, calls the handler with the
    context it was given, and validates the response, and nothing else.  A
    request that fails validation gives the [BadRequest] envelope with the
    public message of the failure; an error of the handler is returned as
    it is; a response that fails validation gives a wrapped plain error, in
    which [errors.As] finds no envelope; otherwise the response of the
    handler is returned. *)
Theorem InvokeHandler_steps {TReq TResp : Type}
    (Default : @apiendpoint.Validate TReq TResp)
    (PublicFacingMessage :
       @apiendpoint.Validate TReq TResp -> validator.Failure -> string)
    (ctx : Context) (handler : @apiendpoint.Handler TReq TResp)
    (opts : option (@apiendpoint.MountOpts TReq TResp)) (req : option TReq) :
  let validator :=
    match opts with
    | Some o => match apiendpoint.Validator o with
                | Some v => v
                | None => Default
                end
    | None => Default
    end in
  let result :=
    apitest.InvokeHandler Default PublicFacingMessage ctx handler opts req in
  (forall verr,
     apiendpoint.StructCtxReq validator ctx req = Some verr ->
     result
     = (None,
        Some (Envelope BadRequest
                (Build_APIError None (PublicFacingMessage validator verr)
                                400))))
  /\ (apiendpoint.StructCtxReq validator ctx req = None ->
      (forall resp err,
         handler ctx req = (resp, Some err) -> result = (None, Some err))
      /\ (forall resp verr,
            handler ctx req = (resp, None) ->
            apiendpoint.StructCtxResp validator ctx resp = Some verr ->
            result
            = (None,
               Some (wrapError
                       ("apitest: error validating response API resource: "
                        +:+ Error (validator.asError verr))
                       (validator.asError verr)))
            /\ apierror.As
                 (wrapError
                    ("apitest: error validating response API resource: "
                     +:+ Error (validator.asError verr))
                    (validator.asError verr)) = None)
      /\ (forall resp,
            handler ctx req = (resp, None) ->
            apiendpoint.StructCtxResp validator ctx resp = None ->
            result = (resp, None))).
Proof.
  intros validator result.
  assert (result
          = match apiendpoint.StructCtxReq validator ctx req with
            | Some err =>
                (None,
                 Some (apierror.asError
                         (apierror.NewBadRequest
                            (PublicFacingMessage validator err))))
            | None =>
                let '(resp, err) := handler ctx req in
                match err with
                | Some err => (None, Some err)
                | None =>
                    match apiendpoint.StructCtxResp validator ctx resp with
                    | Some err =>
                        (None,
                         Some (Errorf_w
                                 "apitest: error validating response API resource: "
                                 (validator.asError err)))
                    | None => (resp, None)
                    end
                end
            end) as ->
    by (subst result validator; unfold apitest.InvokeHandler;
        destruct opts as [[? ? [?|]]|]; reflexivity).
  split.
  - intros verr ->. reflexivity.
  - intros ->. split; [|split].
    + intros resp err ->. reflexivity.
    + intros resp verr -> ->. split; [reflexivity|].
      destruct verr; reflexivity.
    + intros resp -> ->. reflexivity.
Qed.

Lemma InvokeHandler_steps_tests :
  apitest.InvokeHandler apitest_test.tags apitest_test.publicFacingMessage
    context.Background apitest_test.handler None
    (Some {| apitest_test.RequiredReqField := "" |})
  = (None,
     Some (apierror.asError
             (apierror.NewBadRequest "Field `req_field` is required.")))
  /\ apitest.InvokeHandler apitest_test.tags
       apitest_test.publicFacingMessage context.Background
       (fun _ _ => (None, Some (PgError "" pgerrcode.InsufficientPrivilege "")))
       None (Some {| apitest_test.RequiredReqField := "string" |})
     = (None, Some (PgError "" pgerrcode.InsufficientPrivilege ""))
  /\ (Error <$> (apitest.InvokeHandler apitest_test.tags
                   apitest_test.publicFacingMessage context.Background
                   apitest_test.emptyHandler None
                   (Some {| apitest_test.RequiredReqField := "string" |})).2)
     = Some "apitest: error validating response API resource: Key: 'testResponse.resp_field' Error:Field validation for 'resp_field' failed on the 'required' tag"
  /\ apitest.InvokeHandler apitest_test.tags
       apitest_test.publicFacingMessage context.Background
       apitest_test.handler None
       (Some {| apitest_test.RequiredReqField := "string" |})
     = (Some {| apitest_test.RequiredRespField := "response value" |}, None).
Proof.
  destruct (InvokeHandler_steps apitest_test.tags
              apitest_test.publicFacingMessage context.Background
              apitest_test.handler None
              (Some {| apitest_test.RequiredReqField := "" |}))
    as [Hrequest _].
  destruct (InvokeHandler_steps apitest_test.tags
              apitest_test.publicFacingMessage context.Background
              (fun _ _ =>
                 (None, Some (PgError "" pgerrcode.InsufficientPrivilege "")))
              None
              (Some {| apitest_test.RequiredReqField := "string" |})) as [_ Hhandler].
  destruct (InvokeHandler_steps apitest_test.tags
              apitest_test.publicFacingMessage context.Background
              apitest_test.emptyHandler None
              (Some {| apitest_test.RequiredReqField := "string" |})) as [_ Hresponse].
  destruct (InvokeHandler_steps apitest_test.tags
              apitest_test.publicFacingMessage context.Background
              apitest_test.handler None
              (Some {| apitest_test.RequiredReqField := "string" |})) as [_ Hsuccess].
  cbv zeta in *.
  split; [exact (Hrequest _ eq_refl)|].
  split; [exact (proj1 (Hhandler eq_refl) _ _ eq_refl)|].
  split.
  - pose proof (proj1 (proj1 (proj2 (Hresponse eq_refl)) _ _ eq_refl eq_refl))
      as H.
    rewrite H. reflexivity.
  - exact (proj2 (proj2 (Hsuccess eq_refl)) _ eq_refl eq_refl).
Defined.

(** * Further properties *)

(** ** Tri-state fields and envelopes *)

(** X1: whatever bytes [UnmarshalJSON] was given and whether or not it
    failed, the validator is afterwards handed exactly the [Value] pointer
    of the field: nothing after a null, the decoded value otherwise. *)
Theorem extract_after_UnmarshalJSON {T : Type}
    (json_Unmarshal : string -> option T -> option T * option error)
    (ps : apitype.ExplicitNullable T) (data : string) :
  apitype.ExtractExplicitNullableValueForValidation
    (apitype.ofExplicitNullable
       (apitype.UnmarshalJSON json_Unmarshal ps data).1)
  = apitype.Value (apitype.UnmarshalJSON json_Unmarshal ps data).1.
Proof.
  pose proof (UnmarshalJSON_Set json_Unmarshal ps data) as Hset.
  destruct (apitype.UnmarshalJSON json_Unmarshal ps data) as [[s v] err].
  cbn in *. subst s. by destruct v.
Qed.

(** X2: when a key of the object selects the field twice, first with a
    value that decodes to [v] and later with the literal null, the field
    ends as explicit-value with [v]: the null marks the field as present
    but does not clear the value stored before. *)
Theorem null_after_value_keeps_value {T : Type}
    (json_Unmarshal : string -> option T -> option T * option error)
    (name : string) (pre mid post : list (string * string))
    (key1 key2 raw : string) (v : T) :
  Forall (fun m => json.selects name m.1 = false) pre ->
  Forall (fun m => json.selects name m.1 = false) mid ->
  Forall (fun m => json.selects name m.1 = false) post ->
  json.selects name key1 = true ->
  json.selects name key2 = true ->
  raw <> "null" ->
  json_Unmarshal raw None = (Some v, None) ->
  json.decodeMembers (apitype.UnmarshalJSON json_Unmarshal) name
    (pre ++ (key1, raw) :: mid ++ (key2, "null") :: post) apitype.zero
  = ({| apitype.Set_ := true; apitype.Value := Some v |}, None).
Proof.
  intros Hpre Hmid Hpost Hk1 Hk2 Hraw Hv.
  rewrite decodeMembers_skip by done. simpl. rewrite Hk1.
  rewrite UnmarshalJSON_value by done. cbn [apitype.Value apitype.zero].
  rewrite Hv. cbn [fst snd]. by rewrite decodeMembers_once.
Qed.

Lemma null_after_value_keeps_value_label :
  json.decodeMembers (apitype.UnmarshalJSON apitype_test.unmarshalString)
    "label"
    ([] ++ ("label", json.enclose "a") :: [("id", "1")]
        ++ ("Label", "null") :: []) apitype.zero
  = ({| apitype.Set_ := true; apitype.Value := Some "a" |}, None).
Proof.
  apply null_after_value_keeps_value;
    repeat constructor; discriminate.
Defined.

(** X3: [WithInternalError] changes the internal cause and nothing else:
    the cause is the one read back, the kind, the status code and the text
    of the error stay, and the response that the pipeline writes for the
    envelope is the same with and without the cause. *)
Theorem WithInternalError_changes_cause_only (i : apierror.Interface)
    (cause : option error) (ctx : Context) (logger : option slog.Logger)
    (w : http.ResponseWriter) :
  apierror.GetInternalError (apierror.WithInternalError i cause) = cause
  /\ (apierror.WithInternalError i cause).1 = i.1
  /\ StatusCode (apierror.WithInternalError i cause).2 = StatusCode i.2
  /\ Error (apierror.asError (apierror.WithInternalError i cause))
     = Error (apierror.asError i)
  /\ http.response
       (apiendpoint.writeError ctx logger w
          (apierror.asError (apierror.WithInternalError i cause)))
     = http.response
         (apiendpoint.writeError ctx logger w (apierror.asError i)).
Proof.
  destruct i as [k [c m s]]. repeat split.
  unfold apiendpoint.writeError, apierror.Write, http.Write, http.WriteHeader,
    http.Header_Set. cbn.
  destruct logger, cause, c, (http.status w), (http.broken w); reflexivity.
Qed.

Lemma Write_refused (e : APIError) (ctx : Context) (l : slog.Logger)
    (w : http.ResponseWriter) (err : error) :
  http.broken w = Some err ->
  apierror.Write e ctx (Some l) w
  = Done {| http.headers :=
              <["Content-Type" := "application/json; charset=utf-8"]>
                (http.headers w);
            http.status := Some (default (StatusCode e) (http.status w));
            http.written := http.written w;
            http.broken := Some err |}
         [{| slog.level := slog.LevelError;
             slog.msg := "error writing API error";
             slog.attrs := [("error", Error err)] |}].
Proof.
  intros Hb. unfold apierror.Write, http.Write, http.WriteHeader,
    http.Header_Set. cbn. destruct (http.status w); cbn; rewrite Hb; done.
Qed.

(** X4: on a connection that refuses writes, [Write] still sets the
    content type and the status line, sends no body, and reports the
    failure in one record at error level instead of returning it; without a
    logger that report panics. *)
Theorem Write_broken_sink (e : APIError) (ctx : Context) (l : slog.Logger)
    (w : http.ResponseWriter) (err : error) :
  http.broken w = Some err ->
  apierror.Write e ctx (Some l) w
  = Done {| http.headers :=
              <["Content-Type" := "application/json; charset=utf-8"]>
                (http.headers w);
            http.status := Some (default (StatusCode e) (http.status w));
            http.written := http.written w;
            http.broken := Some err |}
         [{| slog.level := slog.LevelError;
             slog.msg := "error writing API error";
             slog.attrs := [("error", Error err)] |}]
  /\ apierror.Write e ctx None w = Panic nilDereference.
Proof.
  intros Hb. unfold apierror.Write, http.Write, http.WriteHeader,
    http.Header_Set. cbn. destruct (http.status w); cbn; rewrite Hb; done.
Qed.

Lemma Write_broken_sink_pipe :
  http.response
    (apierror.Write (apierror.NewBadRequest "Bad request.").2
       context.Background (Some apiendpoint_test.testLogger)
       examples.brokenRecorder)
  = Some (Some 400, "")
  /\ apierror.Write (apierror.NewBadRequest "Bad request.").2
       context.Background None examples.brokenRecorder
     = Panic nilDereference.
Proof.
  destruct (Write_broken_sink (apierror.NewBadRequest "Bad request.").2
              context.Background apiendpoint_test.testLogger
              examples.brokenRecorder (errorString "write: broken pipe")
              eq_refl) as [H1 H2].
  split; [by rewrite H1 | exact H2].
Defined.

(** ** What the error block writes and logs *)

Section ErrorBlock.

Variables (ctx : Context) (l : slog.Logger) (w : http.ResponseWriter).
Hypothesis working : http.broken w = None.

Local Abbreviation sent e :=
  {| http.headers :=
       <["Content-Type" := "application/json; charset=utf-8"]> (http.headers w);
     http.status := Some (default (StatusCode e) (http.status w));
     http.written := http.written w +:+ (apierror.Marshal e).1;
     http.broken := None |}.

Lemma writeError_classified (err : error) (k : Kind) (e : APIError) :
  apierror.As (apiendpoint.maybeInterpretInternalError err) = Some (k, e) ->
  apiendpoint.writeError ctx (Some l) w err
  = Done (sent e)
      [{| slog.level := slog.LevelInfo;
          slog.msg := "API error response";
          slog.attrs :=
            ("error", Message e)
            :: match InternalError e with
               | Some internalErr => [("internal_error", Error internalErr)]
               | None => []
               end |}].
Proof.
  intros Ha. unfold apiendpoint.writeError. rewrite Ha.
  unfold InfoContext. rewrite log_then, Write_working_sink by done.
  unfold apierror.GetInternalError. cbn [fst snd Error apierror.asError].
  by destruct (InternalError e).
Qed.

Lemma writeError_unclassified (err : error) :
  apiendpoint.maybeInterpretInternalError err = err ->
  apierror.As err = None ->
  apiendpoint.writeError ctx (Some l) w err
  = if errors.Is_DeadlineExceeded err
    then Done (sent (apierror.NewServiceUnavailable
                       "Request timed out. Retrying the request might work.").2)
           [{| slog.level := slog.LevelError; slog.msg := "request timeout";
               slog.attrs := [("error", Error err)] |}]
    else Done (sent (apierror.NewInternalServerError
                       "Internal server error. Check logs for more information.").2)
           [{| slog.level := slog.LevelError;
               slog.msg := "error running API route";
               slog.attrs := [("error", Error err)] |}].
Proof.
  intros Hi Ha. unfold apiendpoint.writeError. rewrite Hi, Ha.
  destruct (errors.Is_DeadlineExceeded err); unfold ErrorContext;
    by rewrite log_then, Write_working_sink.
Qed.


(** X6: an error that carries an envelope and that reinterpretation leaves
    alone, also one wrapped by [fmt.Errorf], is answered with the status
    code and the message of that envelope, and logged at info level with
    the message and, when there is one, the text of the internal cause,
    which does not reach the body. *)
Theorem envelope_is_written_as_it_is (err : error) (k : Kind) (e : APIError) :
  apierror.As err = Some (k, e) ->
  errors.As isConnectError err = None ->
  (forall sev code msg,
     errors.As isPgError err = Some (PgError sev code msg) ->
     code <> pgerrcode.InsufficientPrivilege) ->
  apiendpoint.writeError ctx (Some l) w err
  = Done {| http.headers :=
              <["Content-Type" := "application/json; charset=utf-8"]>
                (http.headers w);
            http.status := Some (default (StatusCode e) (http.status w));
            http.written :=
              http.written w +:+ "{" +:+ json.quote "message" +:+ ":"
              +:+ json.quote (Message e) +:+ "}";
            http.broken := None |}
      [{| slog.level := slog.LevelInfo;
          slog.msg := "API error response";
          slog.attrs :=
            ("error", Message e)
            :: match InternalError e with
               | Some internalErr => [("internal_error", Error internalErr)]
               | None => []
               end |}].
Proof.
  intros Ha Hc Hp. apply (writeError_classified err k).
  by rewrite maybeInterpretInternalError_other.
Qed.

End ErrorBlock.

Lemma envelope_is_written_as_it_is_wrapped :
  http.response
    (apiendpoint.writeError context.Background
       (Some apiendpoint_test.testLogger) apiendpoint_test.recorder
       (Errorf_w "loading job: "
          (apierror.asError (apierror.NewNotFound "Job not found."))))
  = Some (Some 404, json.literalObject "message" "Job not found.").
Proof.
  rewrite (envelope_is_written_as_it_is context.Background
             apiendpoint_test.testLogger apiendpoint_test.recorder eq_refl
             _ NotFound (apierror.NewNotFound "Job not found.").2);
    [reflexivity | reflexivity | reflexivity |].
  intros sev code msg H. vm_compute in H. discriminate.
Defined.

(** X7: each constructor of package [apierror] that takes the message as
    it is fixes the status code of its kind: an envelope it builds,
    returned to the pipeline with a message that needs no escaping, is
    answered with that code and that message. *)
Theorem constructors_fix_the_status (ctx : Context) (l : slog.Logger)
    (w : http.ResponseWriter) (message : string) :
  http.status w = None ->
  http.broken w = None ->
  json.plain message = true ->
  Forall (fun c : (string -> apierror.Interface) * Z =>
            http.response
              (apiendpoint.writeError ctx (Some l) w
                 (apierror.asError (c.1 message)))
            = Some (Some c.2,
                    http.written w +:+ json.literalObject "message" message))
    [(apierror.NewBadRequest, 400); (apierror.NewNotFound, 404);
     (apierror.NewRequestEntityTooLarge, 413);
     (apierror.NewInternalServerError, 500);
     (apierror.NewServiceUnavailable, 503)].
Proof.
  intros Hfresh Hworking Hplain.
  repeat
    match goal with
    | |- Forall _ ((?c, _) :: _) =>
        apply Forall_cons_2;
        [cbn [fst snd];
         rewrite (writeError_envelope ctx l w Hfresh Hworking
                    (apierror.asError (c message)) (c message).1
                    (c message).2 eq_refl);
         [reflexivity | exact Hplain]|]
    end.
  apply Forall_nil_2.
Qed.

Lemma constructors_fix_the_status_not_found :
  http.response
    (apiendpoint.writeError context.Background
       (Some apiendpoint_test.testLogger) apiendpoint_test.recorder
       (apierror.asError (apierror.NewNotFound "Job not found.")))
  = Some (Some 404, json.literalObject "message" "Job not found.").
Proof.
  pose proof (constructors_fix_the_status context.Background
                apiendpoint_test.testLogger apiendpoint_test.recorder
                "Job not found." eq_refl eq_refl eq_refl) as H.
  apply Forall_cons_1 in H as [_ H]. apply Forall_cons_1 in H as [H _].
  exact H.
Defined.

(** ** The stages of the pipeline *)

Lemma Method_not_GET (r : http.Request) :
  http.Method r <> http.MethodGet ->
  negb (String.eqb (http.Method r) http.MethodGet) = true.
Proof. intros H. by destruct (String.eqb_spec (http.Method r) http.MethodGet). Qed.

Section Stages.

Context {TReq TResp : Type}.
Variable zeroReq : TReq.
Variable json_Unmarshal : string -> TReq -> TReq * option error.
Variable json_Marshal : option TResp -> string * option error.
Variable ExtractRaw : option (TReq -> http.Request -> TReq * option error).
Variable RespondRaw :
  option (option TResp -> http.ResponseWriter
          -> http.ResponseWriter * option error).
Variable PublicFacingMessage :
  @apiendpoint.Validate TReq TResp -> validator.Failure -> string.

Local Abbreviation decodeBody :=
  (apiendpoint.decodeBody zeroReq json_Unmarshal).
Local Abbreviation extract :=
  (apiendpoint.extract zeroReq json_Unmarshal ExtractRaw).
Local Abbreviation prepare :=
  (apiendpoint.prepare zeroReq json_Unmarshal ExtractRaw PublicFacingMessage).
Local Abbreviation run :=
  (apiendpoint.run zeroReq json_Unmarshal json_Marshal ExtractRaw RespondRaw
                   PublicFacingMessage).
Local Abbreviation executeAPIEndpoint :=
  (apiendpoint.executeAPIEndpoint zeroReq json_Unmarshal json_Marshal
     ExtractRaw RespondRaw PublicFacingMessage).
Local Abbreviation pipelineContext now r :=
  (context.WithTimeout now (http.Ctx r) (10 * time.Second)).
Local Abbreviation plainError err :=
  (apierror.As err = None /\ errors.As isConnectError err = None
   /\ errors.As isPgError err = None
   /\ errors.Is_DeadlineExceeded err = false).
Local Abbreviation sent w code body :=
  {| http.headers :=
       <["Content-Type" := "application/json; charset=utf-8"]> (http.headers w);
     http.status := Some (default code (http.status w));
     http.written := http.written w +:+ body;
     http.broken := None |}.
Local Abbreviation internalServerError w err :=
  (Done (sent w 500
           (json.literalObject "message"
              "Internal server error. Check logs for more information."))
        [{| slog.level := slog.LevelError;
            slog.msg := "error running API route";
            slog.attrs := [("error", Error err)] |}]).

Lemma writeError_wrapped (ctx : Context) (l : slog.Logger)
    (w : http.ResponseWriter) (prefix : string) (err : error) :
  plainError err ->
  http.broken w = None ->
  apiendpoint.writeError ctx (Some l) w (Errorf_w prefix err)
  = internalServerError w (Errorf_w prefix err).
Proof.
  intros (Ha & Hc & Hp & Hd) Hworking.
  rewrite writeError_unclassified; [| done | | done].
  - change (errors.Is_DeadlineExceeded (Errorf_w prefix err))
      with (errors.Is_DeadlineExceeded err).
    by rewrite Hd.
  - apply maybeInterpretInternalError_other; [exact Hc|].
    intros sev code msg H.
    change (errors.As isPgError (Errorf_w prefix err))
      with (errors.As isPgError err) in H.
    congruence.
Qed.

Lemma run_prepare_error (ctx : Context) (w : http.ResponseWriter)
    (r : http.Request) (meta : apiendpoint.EndpointMeta)
    (validator : @apiendpoint.Validate TReq TResp)
    (execute : @apiendpoint.Handler TReq TResp) (err : error) :
  prepare ctx validator r = inr err ->
  run ctx w r meta validator execute = (w, Some err).
Proof. intros H. unfold apiendpoint.run. by rewrite H. Qed.

Lemma prepare_decode_error (ctx : Context)
    (validator : @apiendpoint.Validate TReq TResp) (r : http.Request)
    (err : error) :
  decodeBody r = inr err -> prepare ctx validator r = inr err.
Proof.
  intros H. unfold apiendpoint.prepare, apiendpoint.extract. by rewrite H.
Qed.

Lemma executeAPIEndpoint_prepare_error (now : Z) (w : http.ResponseWriter)
    (r : http.Request) (logger : option slog.Logger)
    (meta : apiendpoint.EndpointMeta)
    (validator : @apiendpoint.Validate TReq TResp)
    (execute : @apiendpoint.Handler TReq TResp) (err : error) :
  prepare (pipelineContext now r) validator r = inr err ->
  executeAPIEndpoint now w r logger meta validator execute
  = apiendpoint.writeError (pipelineContext now r) logger w err.
Proof.
  intros H. apply executeAPIEndpoint_error. by apply run_prepare_error.
Qed.

(** X8: a request other than GET whose body exceeds the limit of its
    reader is answered with 413 and the message [Request entity too
    large.], logged at info level; decoder, validator and handler are not
    reached. *)
Theorem body_too_large_is_413 (now : Z) (w : http.ResponseWriter)
    (r : http.Request) (l : slog.Logger) (meta : apiendpoint.EndpointMeta)
    (validator : @apiendpoint.Validate TReq TResp)
    (execute : @apiendpoint.Handler TReq TResp) (err : error) :
  http.Method r <> http.MethodGet ->
  http.failure (http.Body r) = Some err ->
  is_Some (errors.As isMaxBytesError err) ->
  http.broken w = None ->
  executeAPIEndpoint now w r (Some l) meta validator execute
  = Done (sent w 413
            (json.literalObject "message" "Request entity too large."))
      [{| slog.level := slog.LevelInfo;
          slog.msg := "API error response";
          slog.attrs := [("error", "Request entity too large.")] |}].
Proof.
  intros Hm Hf [m Hmax] Hworking.
  rewrite (executeAPIEndpoint_prepare_error _ _ _ _ _ _ _
             (apierror.asError
                (apierror.NewRequestEntityTooLarge
                   "Request entity too large."))).
  - by rewrite (writeError_classified _ l w Hworking
                  (apierror.asError
                     (apierror.NewRequestEntityTooLarge
                        "Request entity too large."))
                  RequestEntityTooLarge
                  (apierror.NewRequestEntityTooLarge
                     "Request entity too large.").2 eq_refl).
  - apply prepare_decode_error. unfold apiendpoint.decodeBody.
    rewrite Method_not_GET by done. cbn. by rewrite Hf, Hmax.
Qed.

(** X9: when reading the body of a request other than GET fails for
    another reason, with an error that is neither an envelope, a database
    failure nor a deadline signal, the answer is the generic 500; the text
    of the read error goes to the log, behind [error reading request
    body: ], and not to the client. *)
Theorem body_read_error_is_500 (now : Z) (w : http.ResponseWriter)
    (r : http.Request) (l : slog.Logger) (meta : apiendpoint.EndpointMeta)
    (validator : @apiendpoint.Validate TReq TResp)
    (execute : @apiendpoint.Handler TReq TResp) (err : error) :
  http.Method r <> http.MethodGet ->
  http.failure (http.Body r) = Some err ->
  errors.As isMaxBytesError err = None ->
  plainError err ->
  http.broken w = None ->
  executeAPIEndpoint now w r (Some l) meta validator execute
  = internalServerError w
      (wrapError ("error reading request body: " +:+ Error err) err).
Proof.
  intros Hm Hf Hmax Hplain Hworking.
  rewrite (executeAPIEndpoint_prepare_error _ _ _ _ _ _ _
             (Errorf_w "error reading request body: " err)).
  - by rewrite writeError_wrapped.
  - apply prepare_decode_error. unfold apiendpoint.decodeBody.
    rewrite Method_not_GET by done. cbn. by rewrite Hf, Hmax.
Qed.

(** X10: a body that is not empty and that the decoder rejects is answered
    with 400 and the message [Error unmarshaling request body: <error of
    the decoder>.]; raw extraction, validator and handler are not
    reached. *)
Theorem malformed_body_is_400 (now : Z) (w : http.ResponseWriter)
    (r : http.Request) (l : slog.Logger) (meta : apiendpoint.EndpointMeta)
    (validator : @apiendpoint.Validate TReq TResp)
    (execute : @apiendpoint.Handler TReq TResp) (req : TReq) (err : error) :
  http.Method r <> http.MethodGet ->
  http.failure (http.Body r) = None ->
  http.data (http.Body r) <> "" ->
  json_Unmarshal (http.data (http.Body r)) zeroReq = (req, Some err) ->
  http.broken w = None ->
  executeAPIEndpoint now w r (Some l) meta validator execute
  = Done (sent w 400
            ("{" +:+ json.quote "message" +:+ ":"
             +:+ json.quote ("Error unmarshaling request body: "
                             +:+ Error err +:+ ".") +:+ "}"))
      [{| slog.level := slog.LevelInfo;
          slog.msg := "API error response";
          slog.attrs :=
            [("error",
              "Error unmarshaling request body: " +:+ Error err +:+ ".")] |}].
Proof.
  intros Hm Hf Hd Hu Hworking.
  rewrite (executeAPIEndpoint_prepare_error _ _ _ _ _ _ _
             (apierror.asError
                (apierror.NewBadRequest
                   ("Error unmarshaling request body: " +:+ Error err
                    +:+ ".")))).
  - by rewrite (writeError_classified _ l w Hworking
                  (apierror.asError
                     (apierror.NewBadRequest
                        ("Error unmarshaling request body: " +:+ Error err
                         +:+ ".")))
                  BadRequest
                  (apierror.NewBadRequest
                     ("Error unmarshaling request body: " +:+ Error err
                      +:+ ".")).2 eq_refl).
  - apply prepare_decode_error. unfold apiendpoint.decodeBody.
    rewrite Method_not_GET by done. cbn. rewrite Hf.
    destruct (http.data (http.Body r)) as [|c s] eqn:Hdata; [done|].
    cbn. by rewrite Hu.
Qed.

(** X11: an empty body is not handed to the decoder: for a request other
    than GET with an empty body the request struct is the zero value, and
    the whole execution is the same whatever the decoder would do. *)
Theorem empty_body_is_not_decoded (now : Z) (w : http.ResponseWriter)
    (r : http.Request) (logger : option slog.Logger)
    (meta : apiendpoint.EndpointMeta)
    (validator : @apiendpoint.Validate TReq TResp)
    (execute : @apiendpoint.Handler TReq TResp)
    (otherDecoder : string -> TReq -> TReq * option error) :
  http.Method r <> http.MethodGet ->
  http.Body r = http.NopCloser "" ->
  decodeBody r = inl (zeroReq, r)
  /\ apiendpoint.executeAPIEndpoint zeroReq otherDecoder json_Marshal
       ExtractRaw RespondRaw PublicFacingMessage now w r logger meta
       validator execute
     = executeAPIEndpoint now w r logger meta validator execute.
Proof.
  intros Hm Hbody.
  assert (forall u, apiendpoint.decodeBody zeroReq u r = inl (zeroReq, r))
    as Hdecode.
  { intros u. unfold apiendpoint.decodeBody.
    rewrite Method_not_GET by done. rewrite Hbody. cbn.
    rewrite <- Hbody. by destruct r. }
  split; [apply Hdecode|].
  unfold apiendpoint.executeAPIEndpoint, apiendpoint.run,
    apiendpoint.prepare, apiendpoint.extract.
  by rewrite !Hdecode.
Qed.


(** X13: an error of raw extraction is returned as it is: it reaches the
    error block unwrapped, so that the extractor chooses the answer, and
    neither the validator nor the handler is reached. *)
Theorem raw_extraction_error_is_returned (now : Z) (w : http.ResponseWriter)
    (r r' : http.Request) (logger : option slog.Logger)
    (meta : apiendpoint.EndpointMeta)
    (validator : @apiendpoint.Validate TReq TResp)
    (execute : @apiendpoint.Handler TReq TResp)
    (extractRaw : TReq -> http.Request -> TReq * option error)
    (req req' : TReq) (err : error) :
  decodeBody r = inl (req, r') ->
  extractRaw req r' = (req', Some err) ->
  apiendpoint.executeAPIEndpoint zeroReq json_Unmarshal json_Marshal
    (Some extractRaw) RespondRaw PublicFacingMessage now w r logger meta
    validator execute
  = apiendpoint.writeError (pipelineContext now r) logger w err.
Proof.
  intros Hd He. apply executeAPIEndpoint_error.
  unfold apiendpoint.run, apiendpoint.prepare, apiendpoint.extract.
  by rewrite Hd, He.
Qed.

(** X14: a request struct that fails validation never reaches the handler:
    the answer is the 400 envelope with the public message of the failure,
    whatever the handler and the success status of the endpoint are. *)
Theorem invalid_request_is_400 (now : Z) (w : http.ResponseWriter)
    (r : http.Request) (l : slog.Logger) (meta : apiendpoint.EndpointMeta)
    (validator : @apiendpoint.Validate TReq TResp)
    (execute : @apiendpoint.Handler TReq TResp) (req : TReq)
    (failure : validator.Failure) :
  extract r = inl req ->
  apiendpoint.StructCtxReq validator (pipelineContext now r) (Some req)
  = Some failure ->
  http.broken w = None ->
  executeAPIEndpoint now w r (Some l) meta validator execute
  = Done (sent w 400
            ("{" +:+ json.quote "message" +:+ ":"
             +:+ json.quote (PublicFacingMessage validator failure) +:+ "}"))
      [{| slog.level := slog.LevelInfo;
          slog.msg := "API error response";
          slog.attrs :=
            [("error", PublicFacingMessage validator failure)] |}].
Proof.
  intros He Hv Hworking.
  rewrite (executeAPIEndpoint_prepare_error _ _ _ _ _ _ _
             (apierror.asError
                (apierror.NewBadRequest
                   (PublicFacingMessage validator failure)))).
  - by rewrite (writeError_classified _ l w Hworking
                  (apierror.asError
                     (apierror.NewBadRequest
                        (PublicFacingMessage validator failure)))
                  BadRequest
                  (apierror.NewBadRequest
                     (PublicFacingMessage validator failure)).2 eq_refl).
  - unfold apiendpoint.prepare. by rewrite He, Hv.
Qed.

(** X15: the success path.  When the handler returns a response without
    error and the response encodes, the pipeline sets the JSON content
    type, writes the success status of the endpoint and the encoded bytes,
    and logs nothing: it works without a logger too. *)
Theorem success_response (now : Z) (w : http.ResponseWriter)
    (r : http.Request) (logger : option slog.Logger)
    (meta : apiendpoint.EndpointMeta)
    (validator : @apiendpoint.Validate TReq TResp)
    (execute : @apiendpoint.Handler TReq TResp) (req : TReq)
    (resp : option TResp) (respData : string) :
  prepare (pipelineContext now r) validator r = inl req ->
  execute (pipelineContext now r) (Some req) = (resp, None) ->
  json_Marshal resp = (respData, None) ->
  http.broken w = None ->
  apiendpoint.executeAPIEndpoint zeroReq json_Unmarshal json_Marshal
    ExtractRaw None PublicFacingMessage now w r logger meta validator execute
  = Done (sent w (apiendpoint.StatusCode meta) respData) [].
Proof.
  intros Hp He Hm Hworking.
  unfold apiendpoint.executeAPIEndpoint, apiendpoint.run, apiendpoint.respond.
  rewrite Hp, He, Hm. unfold http.Write, http.WriteHeader, http.Header_Set.
  cbn. destruct (http.status w); cbn; by rewrite Hworking.
Qed.

(** X16: a response that does not encode is answered with the generic
    500; the error of the encoder goes to the log, behind [error marshaling
    response JSON: ], and the success status is not written. *)
Theorem marshal_failure_is_500 (now : Z) (w : http.ResponseWriter)
    (r : http.Request) (l : slog.Logger) (meta : apiendpoint.EndpointMeta)
    (validator : @apiendpoint.Validate TReq TResp)
    (execute : @apiendpoint.Handler TReq TResp) (req : TReq)
    (resp : option TResp) (respData : string) (err : error) :
  prepare (pipelineContext now r) validator r = inl req ->
  execute (pipelineContext now r) (Some req) = (resp, None) ->
  json_Marshal resp = (respData, Some err) ->
  plainError err ->
  http.broken w = None ->
  apiendpoint.executeAPIEndpoint zeroReq json_Unmarshal json_Marshal
    ExtractRaw None PublicFacingMessage now w r (Some l) meta validator
    execute
  = internalServerError w
      (wrapError ("error marshaling response JSON: " +:+ Error err) err).
Proof.
  intros Hp He Hm Hplain Hworking.
  rewrite (executeAPIEndpoint_error _ _ _ _ _ _ _ _ w _ _ _ _ _
             (Errorf_w "error marshaling response JSON: " err)).
  - by rewrite writeError_wrapped.
  - unfold apiendpoint.run, apiendpoint.respond. by rewrite Hp, He, Hm.
Qed.

(** X17: a response type that writes itself takes over the sink: the
    pipeline sets no header and writes no status of its own, does not
    encode the response, and only an error of the raw writer brings it to
    the error block, on the sink as the writer left it. *)
Theorem raw_response_bypasses_encoding (now : Z) (w : http.ResponseWriter)
    (r : http.Request) (logger : option slog.Logger)
    (meta : apiendpoint.EndpointMeta)
    (validator : @apiendpoint.Validate TReq TResp)
    (execute : @apiendpoint.Handler TReq TResp) (req : TReq)
    (resp : option TResp)
    (respondRaw : option TResp -> http.ResponseWriter
                  -> http.ResponseWriter * option error)
    (otherEncoder : option TResp -> string * option error) :
  prepare (pipelineContext now r) validator r = inl req ->
  execute (pipelineContext now r) (Some req) = (resp, None) ->
  apiendpoint.executeAPIEndpoint zeroReq json_Unmarshal otherEncoder
    ExtractRaw (Some respondRaw) PublicFacingMessage now w r logger meta
    validator execute
  = match respondRaw resp w with
    | (w', Some err) =>
        apiendpoint.writeError (pipelineContext now r) logger w' err
    | (w', None) => Done w' []
    end.
Proof.
  intros Hp He.
  unfold apiendpoint.executeAPIEndpoint, apiendpoint.run, apiendpoint.respond.
  rewrite Hp, He. by destruct (respondRaw resp w) as [w' [err|]].
Qed.

(** X18: when the connection refuses the encoded response, the status line
    that was written stays the success status of the endpoint, no body is
    sent, and the failure is logged twice at error level: once for the
    response, once for the 500 envelope that could not be written
    either. *)
Theorem response_write_failure (now : Z) (w : http.ResponseWriter)
    (r : http.Request) (l : slog.Logger) (meta : apiendpoint.EndpointMeta)
    (validator : @apiendpoint.Validate TReq TResp)
    (execute : @apiendpoint.Handler TReq TResp) (req : TReq)
    (resp : option TResp) (respData : string) (err : error) :
  prepare (pipelineContext now r) validator r = inl req ->
  execute (pipelineContext now r) (Some req) = (resp, None) ->
  json_Marshal resp = (respData, None) ->
  http.broken w = Some err ->
  plainError err ->
  apiendpoint.executeAPIEndpoint zeroReq json_Unmarshal json_Marshal
    ExtractRaw None PublicFacingMessage now w r (Some l) meta validator
    execute
  = Done {| http.headers :=
              <["Content-Type" := "application/json; charset=utf-8"]>
                (http.headers w);
            http.status :=
              Some (default (apiendpoint.StatusCode meta) (http.status w));
            http.written := http.written w;
            http.broken := Some err |}
      [{| slog.level := slog.LevelError;
          slog.msg := "error running API route";
          slog.attrs :=
            [("error", "error writing response: " +:+ Error err)] |};
       {| slog.level := slog.LevelError;
          slog.msg := "error writing API error";
          slog.attrs := [("error", Error err)] |}].
Proof.
  intros Hp He Hm Hbroken (Ha & Hc & Hpg & Hd).
  pose (w1 := http.WriteHeader (apiendpoint.StatusCode meta)
                (http.Header_Set "Content-Type"
                   "application/json; charset=utf-8" w)).
  rewrite (executeAPIEndpoint_error _ _ _ _ _ _ _ _ w1 _ _ _ _ _
             (Errorf_w "error writing response: " err)).
  - unfold apiendpoint.writeError.
    rewrite maybeInterpretInternalError_other;
      [| exact Hc
       | intros sev code msg H;
         change (errors.As isPgError (Errorf_w "error writing response: " err))
           with (errors.As isPgError err) in H; congruence].
    change (apierror.As (Errorf_w "error writing response: " err))
      with (apierror.As err).
    change (errors.Is_DeadlineExceeded
              (Errorf_w "error writing response: " err))
      with (errors.Is_DeadlineExceeded err).
    rewrite Ha, Hd. unfold ErrorContext. rewrite log_then.
    rewrite (Write_refused
               (apierror.NewInternalServerError
                  "Internal server error. Check logs for more information.").2
               (pipelineContext now r) l w1 err);
      [| subst w1; unfold http.WriteHeader, http.Header_Set; cbn;
         by destruct (http.status w)].
    subst w1. unfold http.WriteHeader, http.Header_Set. cbn.
    destruct (http.status w); cbn; by rewrite insert_insert_eq.
  - unfold apiendpoint.run, apiendpoint.respond. rewrite Hp, He, Hm.
    subst w1. unfold http.Write, http.WriteHeader, http.Header_Set. cbn.
    destruct (http.status w); cbn; by rewrite Hbroken.
Qed.

(** X19: the pipeline does not validate responses: its execution depends
    on the validator only through the answers on requests and their public
    messages. *)
Theorem responses_are_not_validated (now : Z) (w : http.ResponseWriter)
    (r : http.Request) (logger : option slog.Logger)
    (meta : apiendpoint.EndpointMeta)
    (v1 v2 : @apiendpoint.Validate TReq TResp)
    (execute : @apiendpoint.Handler TReq TResp) :
  (forall ctx req,
     apiendpoint.StructCtxReq v1 ctx req = apiendpoint.StructCtxReq v2 ctx req) ->
  (forall failure,
     PublicFacingMessage v1 failure = PublicFacingMessage v2 failure) ->
  executeAPIEndpoint now w r logger meta v1 execute
  = executeAPIEndpoint now w r logger meta v2 execute.
Proof.
  intros Hreq Hmsg.
  unfold apiendpoint.executeAPIEndpoint, apiendpoint.run, apiendpoint.prepare.
  destruct extract as [req|err]; [|done]. rewrite Hreq.
  destruct (apiendpoint.StructCtxReq v2 _ _) as [failure|]; [|done].
  by rewrite Hmsg.
Qed.

End Stages.

(** ** Mounting and direct invocation *)

(** X20: [Mount] refuses an endpoint whose metadata lacks the pattern or
    the success status: it panics before anything is registered, and the
    missing pattern, whose message speaks of [Endpoint.Path], is reported
    first. *)
Theorem Mount_rejects_incomplete_meta {TReq TResp : Type} (zeroReq : TReq)
    (json_Unmarshal : string -> TReq -> TReq * option error)
    (json_Marshal : option TResp -> string * option error)
    (ExtractRaw : option (TReq -> http.Request -> TReq * option error))
    (RespondRaw :
       option (option TResp -> http.ResponseWriter
               -> http.ResponseWriter * option error))
    (Default : @apiendpoint.Validate TReq TResp)
    (PublicFacingMessage :
       @apiendpoint.Validate TReq TResp -> validator.Failure -> string)
    (mux : gmap string http.HandlerFunc)
    (ep : @apiendpoint.EndpointExecuteInterface TReq TResp)
    (opts : option (@apiendpoint.MountOpts TReq TResp)) :
  (apiendpoint.Pattern (apiendpoint.Meta ep) = "" ->
   apiendpoint.Mount zeroReq json_Unmarshal json_Marshal ExtractRaw RespondRaw
     Default PublicFacingMessage mux ep opts
   = Panic "Endpoint.Path is required")
  /\ (apiendpoint.Pattern (apiendpoint.Meta ep) <> "" ->
      apiendpoint.StatusCode (apiendpoint.Meta ep) = 0 ->
      apiendpoint.Mount zeroReq json_Unmarshal json_Marshal ExtractRaw
        RespondRaw Default PublicFacingMessage mux ep opts
      = Panic "Endpoint.StatusCode is required").
Proof.
  split.
  - intros Hp. unfold apiendpoint.Mount, apiendpoint.validate. cbn.
    by rewrite Hp.
  - intros Hp Hs. unfold apiendpoint.Mount, apiendpoint.validate. cbn.
    destruct (String.eqb_spec (apiendpoint.Pattern (apiendpoint.Meta ep)) "");
      [done|]. by rewrite Hs.
Qed.

Lemma Mount_rejects_incomplete_meta_examples :
  let mount meta :=
    apiendpoint.Mount apiendpoint_test.postZero apiendpoint_test.postUnmarshal
      apiendpoint_test.postMarshal (Some apiendpoint_test.postExtractRaw) None
      apiendpoint_test.postValidator apiendpoint_test.publicFacingMessage ∅
      {| apiendpoint.Meta := meta;
         apiendpoint.Execute := apiendpoint_test.postExecute 0;
         apiendpoint.logger := None; apiendpoint.meta := None |} None in
  mount {| apiendpoint.Pattern := ""; apiendpoint.StatusCode := 0 |}
  = Panic "Endpoint.Path is required"
  /\ mount {| apiendpoint.Pattern := "POST /api/post-endpoint/{id}";
              apiendpoint.StatusCode := 0 |}
     = Panic "Endpoint.StatusCode is required".
Proof.
  intros mount. split.
  - apply Mount_rejects_incomplete_meta. reflexivity.
  - apply Mount_rejects_incomplete_meta; [discriminate | reflexivity].
Defined.

(** The two variants of [InvokeHandler] agree: the one with options
    is the one without, run with the validator of the options, or else the
    default validator, and with the public message for that validator. *)
Lemma InvokeHandler_variants_agree {TReq TResp : Type}
    (Default : @apiendpoint.Validate TReq TResp)
    (PublicFacingMessage :
       @apiendpoint.Validate TReq TResp -> validator.Failure -> string)
    (ctx : Context) (handler : @apiendpoint.Handler TReq TResp)
    (opts : option (@apiendpoint.MountOpts TReq TResp)) (req : option TReq) :
  let validator :=
    match opts with
    | Some o => match apiendpoint.Validator o with
                | Some v => v
                | None => Default
                end
    | None => Default
    end in
  apitest.InvokeHandler Default PublicFacingMessage ctx handler opts req
  = apitest_go.InvokeHandler validator (PublicFacingMessage validator) ctx
      handler req.
Proof. destruct opts as [[? ? [?|]]|]; reflexivity. Qed.

(** X21: direct invocation and the pipeline agree on success: when
    [InvokeHandler], with the validator of the endpoint and the context of
    the pipeline, accepts the request struct that the pipeline extracted
    and returns the response of the handler, the pipeline answers with the
    success status of the endpoint and the encoding of that response. *)
Theorem pipeline_agrees_with_InvokeHandler {TReq TResp : Type}
    (zeroReq : TReq)
    (json_Unmarshal : string -> TReq -> TReq * option error)
    (json_Marshal : option TResp -> string * option error)
    (ExtractRaw : option (TReq -> http.Request -> TReq * option error))
    (PublicFacingMessage :
       @apiendpoint.Validate TReq TResp -> validator.Failure -> string)
    (now : Z) (w : http.ResponseWriter) (r : http.Request)
    (logger : option slog.Logger) (meta : apiendpoint.EndpointMeta)
    (validator : @apiendpoint.Validate TReq TResp)
    (execute : @apiendpoint.Handler TReq TResp) (req : TReq)
    (resp : option TResp) (respData : string) :
  apiendpoint.extract zeroReq json_Unmarshal ExtractRaw r = inl req ->
  apitest_go.InvokeHandler validator (PublicFacingMessage validator)
    (context.WithTimeout now (http.Ctx r) (10 * time.Second)) execute
    (Some req)
  = (resp, None) ->
  json_Marshal resp = (respData, None) ->
  http.broken w = None ->
  apiendpoint.executeAPIEndpoint zeroReq json_Unmarshal json_Marshal
    ExtractRaw None PublicFacingMessage now w r logger meta validator execute
  = Done {| http.headers :=
              <["Content-Type" := "application/json; charset=utf-8"]>
                (http.headers w);
            http.status :=
              Some (default (apiendpoint.StatusCode meta) (http.status w));
            http.written := http.written w +:+ respData;
            http.broken := None |} [].
Proof.
  intros He Hi Hm Hworking. unfold apitest_go.InvokeHandler in Hi.
  destruct (apiendpoint.StructCtxReq validator _ (Some req)) eqn:Hv; [done|].
  destruct (execute _ (Some req)) as [resp' [err|]] eqn:Hx; [done|].
  destruct (apiendpoint.StructCtxResp validator _ resp'); [done|].
  injection Hi as ->.
  unfold apiendpoint.executeAPIEndpoint, apiendpoint.run,
    apiendpoint.prepare, apiendpoint.respond.
  rewrite He, Hv, Hx, Hm. unfold http.Write, http.WriteHeader, http.Header_Set.
  cbn. destruct (http.status w); cbn; by rewrite Hworking.
Qed.

(** ** The stages on the requests of the tests *)

Ltac by_computation :=
  first [ discriminate
        | vm_compute; reflexivity
        | eexists; vm_compute; reflexivity
        | repeat split; vm_compute; reflexivity ].

Lemma body_too_large_is_413_post :
  http.response
    (apiendpoint_test.servePost (Some apiendpoint_test.testLogger)
       apiendpoint_test.postValidator 0 apiendpoint_test.recorder
       examples.tooLarge)
  = Some (Some 413, json.literalObject "message" "Request entity too large.").
Proof.
  unfold apiendpoint_test.servePost.
  rewrite body_too_large_is_413 with (err := MaxBytesError 1);
    by_computation.
Defined.

Lemma body_read_error_is_500_post :
  http.response
    (apiendpoint_test.servePost (Some apiendpoint_test.testLogger)
       apiendpoint_test.postValidator 0 apiendpoint_test.recorder
       examples.interrupted)
  = Some (Some 500,
          json.literalObject "message"
            "Internal server error. Check logs for more information.").
Proof.
  unfold apiendpoint_test.servePost.
  rewrite body_read_error_is_500 with (err := errorString "unexpected EOF");
    by_computation.
Defined.

Lemma malformed_body_is_400_post :
  http.response
    (apiendpoint_test.servePost (Some apiendpoint_test.testLogger)
       apiendpoint_test.postValidator 0 apiendpoint_test.recorder
       (apiendpoint_test.postTo context.Background "not json"))
  = Some (Some 400,
          json.literalObject "message"
            "Error unmarshaling request body: invalid character looking for beginning of value.").
Proof.
  unfold apiendpoint_test.servePost.
  rewrite malformed_body_is_400
    with (req := apiendpoint_test.postZero)
         (err := jsonError "invalid character looking for beginning of value");
    by_computation.
Defined.

Lemma empty_body_is_not_decoded_post :
  apiendpoint.executeAPIEndpoint apiendpoint_test.postZero
    (fun _ req => (req, Some (jsonError "unexpected end of JSON input")))
    apiendpoint_test.postMarshal (Some apiendpoint_test.postExtractRaw) None
    apiendpoint_test.publicFacingMessage 0 apiendpoint_test.recorder
    (apiendpoint_test.postTo context.Background "")
    (Some apiendpoint_test.testLogger) apiendpoint_test.postMeta
    apiendpoint_test.postValidator (apiendpoint_test.postExecute 0)
  = apiendpoint_test.servePost (Some apiendpoint_test.testLogger)
      apiendpoint_test.postValidator 0 apiendpoint_test.recorder
      (apiendpoint_test.postTo context.Background "").
Proof.
  unfold apiendpoint_test.servePost.
  apply empty_body_is_not_decoded; by_computation.
Defined.


Lemma raw_extraction_error_is_returned_post :
  http.response
    (apiendpoint.executeAPIEndpoint apiendpoint_test.postZero
       apiendpoint_test.postUnmarshal apiendpoint_test.postMarshal
       (Some examples.rejectRaw) None apiendpoint_test.publicFacingMessage 0
       apiendpoint_test.recorder
       (apiendpoint_test.postTo context.Background "")
       (Some apiendpoint_test.testLogger) apiendpoint_test.postMeta
       apiendpoint_test.postValidator (apiendpoint_test.postExecute 0))
  = Some (Some 404, json.literalObject "message" "No such thing.").
Proof.
  rewrite raw_extraction_error_is_returned
    with (r' := apiendpoint_test.postTo context.Background "")
         (req := apiendpoint_test.postZero)
         (req' := apiendpoint_test.postZero)
         (err := apierror.asError (apierror.NewNotFound "No such thing."));
    by_computation.
Defined.

Lemma invalid_request_is_400_post :
  http.response
    (apiendpoint_test.servePost (Some apiendpoint_test.testLogger)
       apiendpoint_test.postValidator 0 apiendpoint_test.recorder
       (apiendpoint_test.postTo context.Background ""))
  = Some (Some 400,
          json.literalObject "message" "Field `message` is required.").
Proof.
  unfold apiendpoint_test.servePost.
  rewrite invalid_request_is_400
    with (req := {| apiendpoint_test.ID := "123";
                    apiendpoint_test.MakeAPIError := false;
                    apiendpoint_test.MakeInternalError := false;
                    apiendpoint_test.MakePostgresError := false;
                    apiendpoint_test.postMessage := "";
                    apiendpoint_test.RawPayload := "" |})
         (failure := validator.Violations [apiendpoint_test.requiredMessage]);
    by_computation.
Defined.

Lemma success_response_post :
  http.response
    (apiendpoint_test.servePost None apiendpoint_test.postValidator 0
       apiendpoint_test.recorder
       (apiendpoint_test.postTo context.Background
                                apiendpoint_test.helloPayload))
  = Some (Some 201,
          (apiendpoint_test.postMarshal
             (Some {| apiendpoint_test.respID := "123";
                      apiendpoint_test.respMessage := "Hello.";
                      apiendpoint_test.respRawPayload :=
                        apiendpoint_test.helloPayload |})).1).
Proof.
  unfold apiendpoint_test.servePost.
  rewrite success_response
    with (req := {| apiendpoint_test.ID := "123";
                    apiendpoint_test.MakeAPIError := false;
                    apiendpoint_test.MakeInternalError := false;
                    apiendpoint_test.MakePostgresError := false;
                    apiendpoint_test.postMessage := "Hello.";
                    apiendpoint_test.RawPayload :=
                      apiendpoint_test.helloPayload |})
         (resp := Some {| apiendpoint_test.respID := "123";
                          apiendpoint_test.respMessage := "Hello.";
                          apiendpoint_test.respRawPayload :=
                            apiendpoint_test.helloPayload |})
         (respData :=
            (apiendpoint_test.postMarshal
               (Some {| apiendpoint_test.respID := "123";
                        apiendpoint_test.respMessage := "Hello.";
                        apiendpoint_test.respRawPayload :=
                          apiendpoint_test.helloPayload |})).1);
    by_computation.
Defined.


Lemma marshal_failure_is_500_post :
  http.response
    (apiendpoint.executeAPIEndpoint apiendpoint_test.postZero
       apiendpoint_test.postUnmarshal examples.failingMarshal
       (Some apiendpoint_test.postExtractRaw) None
       apiendpoint_test.publicFacingMessage 0 apiendpoint_test.recorder
       (apiendpoint_test.postTo context.Background
                                apiendpoint_test.helloPayload)
       (Some apiendpoint_test.testLogger) apiendpoint_test.postMeta
       apiendpoint_test.postValidator (apiendpoint_test.postExecute 0))
  = Some (Some 500,
          json.literalObject "message"
            "Internal server error. Check logs for more information.").
Proof.
  rewrite marshal_failure_is_500
    with (req := {| apiendpoint_test.ID := "123";
                    apiendpoint_test.MakeAPIError := false;
                    apiendpoint_test.MakeInternalError := false;
                    apiendpoint_test.MakePostgresError := false;
                    apiendpoint_test.postMessage := "Hello.";
                    apiendpoint_test.RawPayload :=
                      apiendpoint_test.helloPayload |})
         (resp := Some {| apiendpoint_test.respID := "123";
                          apiendpoint_test.respMessage := "Hello.";
                          apiendpoint_test.respRawPayload :=
                            apiendpoint_test.helloPayload |})
         (respData := "")
         (err := jsonError "json: unsupported value");
    by_computation.
Defined.

Lemma raw_response_bypasses_encoding_text :
  http.response
    (apiendpoint.executeAPIEndpoint apiendpoint_test.postZero
       apiendpoint_test.postUnmarshal examples.failingMarshal
       (Some apiendpoint_test.postExtractRaw) (Some examples.respondText)
       apiendpoint_test.publicFacingMessage 0 apiendpoint_test.recorder
       (apiendpoint_test.postTo context.Background
                                apiendpoint_test.helloPayload)
       None apiendpoint_test.postMeta apiendpoint_test.postValidator
       (apiendpoint_test.postExecute 0))
  = Some (Some 202, "Hello.").
Proof.
  rewrite raw_response_bypasses_encoding
    with (req := {| apiendpoint_test.ID := "123";
                    apiendpoint_test.MakeAPIError := false;
                    apiendpoint_test.MakeInternalError := false;
                    apiendpoint_test.MakePostgresError := false;
                    apiendpoint_test.postMessage := "Hello.";
                    apiendpoint_test.RawPayload :=
                      apiendpoint_test.helloPayload |})
         (resp := Some {| apiendpoint_test.respID := "123";
                          apiendpoint_test.respMessage := "Hello.";
                          apiendpoint_test.respRawPayload :=
                            apiendpoint_test.helloPayload |});
    by_computation.
Defined.

Lemma response_write_failure_post :
  http.response
    (apiendpoint_test.servePost (Some apiendpoint_test.testLogger)
       apiendpoint_test.postValidator 0 examples.brokenRecorder
       (apiendpoint_test.postTo context.Background
                                apiendpoint_test.helloPayload))
  = Some (Some 201, "").
Proof.
  unfold apiendpoint_test.servePost.
  rewrite response_write_failure
    with (req := {| apiendpoint_test.ID := "123";
                    apiendpoint_test.MakeAPIError := false;
                    apiendpoint_test.MakeInternalError := false;
                    apiendpoint_test.MakePostgresError := false;
                    apiendpoint_test.postMessage := "Hello.";
                    apiendpoint_test.RawPayload :=
                      apiendpoint_test.helloPayload |})
         (resp := Some {| apiendpoint_test.respID := "123";
                          apiendpoint_test.respMessage := "Hello.";
                          apiendpoint_test.respRawPayload :=
                            apiendpoint_test.helloPayload |})
         (respData :=
            (apiendpoint_test.postMarshal
               (Some {| apiendpoint_test.respID := "123";
                        apiendpoint_test.respMessage := "Hello.";
                        apiendpoint_test.respRawPayload :=
                          apiendpoint_test.helloPayload |})).1)
         (err := errorString "write: broken pipe");
    by_computation.
Defined.

Lemma responses_are_not_validated_post :
  apiendpoint_test.servePost (Some apiendpoint_test.testLogger)
    {| apiendpoint.StructCtxReq :=
         apiendpoint.StructCtxReq apiendpoint_test.postValidator;
       apiendpoint.StructCtxResp := fun _ _ =>
         Some (validator.Invalid "no response is valid") |}
    0 apiendpoint_test.recorder
    (apiendpoint_test.postTo context.Background apiendpoint_test.helloPayload)
  = apiendpoint_test.servePost (Some apiendpoint_test.testLogger)
      apiendpoint_test.postValidator 0 apiendpoint_test.recorder
      (apiendpoint_test.postTo context.Background
                               apiendpoint_test.helloPayload).
Proof.
  unfold apiendpoint_test.servePost.
  apply responses_are_not_validated; reflexivity.
Defined.

Lemma pipeline_agrees_with_InvokeHandler_post :
  http.response
    (apiendpoint_test.servePost None apiendpoint_test.postValidator 0
       apiendpoint_test.recorder
       (apiendpoint_test.postTo context.Background
                                apiendpoint_test.helloPayload))
  = Some (Some 201,
          (apiendpoint_test.postMarshal
             (apitest_go.InvokeHandler apiendpoint_test.postValidator
                (apiendpoint_test.publicFacingMessage
                   apiendpoint_test.postValidator)
                (context.WithTimeout 0 context.Background (10 * time.Second))
                (apiendpoint_test.postExecute 0)
                (Some {| apiendpoint_test.ID := "123";
                         apiendpoint_test.MakeAPIError := false;
                         apiendpoint_test.MakeInternalError := false;
                         apiendpoint_test.MakePostgresError := false;
                         apiendpoint_test.postMessage := "Hello.";
                         apiendpoint_test.RawPayload :=
                           apiendpoint_test.helloPayload |})).1).1).
Proof.
  unfold apiendpoint_test.servePost.
  rewrite pipeline_agrees_with_InvokeHandler
    with (req := {| apiendpoint_test.ID := "123";
                    apiendpoint_test.MakeAPIError := false;
                    apiendpoint_test.MakeInternalError := false;
                    apiendpoint_test.MakePostgresError := false;
                    apiendpoint_test.postMessage := "Hello.";
                    apiendpoint_test.RawPayload :=
                      apiendpoint_test.helloPayload |})
         (resp := Some {| apiendpoint_test.respID := "123";
                          apiendpoint_test.respMessage := "Hello.";
                          apiendpoint_test.respRawPayload :=
                            apiendpoint_test.helloPayload |})
         (respData :=
            (apiendpoint_test.postMarshal
               (Some {| apiendpoint_test.respID := "123";
                        apiendpoint_test.respMessage := "Hello.";
                        apiendpoint_test.respRawPayload :=
                          apiendpoint_test.helloPayload |})).1);
    by_computation.
Defined.

(** ** Presence of a tri-state field *)

Section Presence.

Context {T : Type}.
Variable json_Unmarshal : string -> option T -> option T * option error.
Variable name : string.

Local Abbreviation decode :=
  (json.decodeMembers (apitype.UnmarshalJSON json_Unmarshal) name).




End Presence.
